(** * OCTIS similarity metrics: a shallow embedding

    Source files embedded here:
    - [octis/evaluation_metrics/similarity_metrics.py]
    - [octis/evaluation_metrics/utils.py]

    Python values are modelled with the distinctions the code depends on:
    Python [int] (unbounded, [Z]), Python [float] and numpy's [float64]
    (both IEEE-754 binary64, Rocq's primitive [float]).  The three differ in
    how division by zero behaves, and the scorers rely on exactly that.
    A numpy array carries its element type, since [np.stack] promotes the
    arrays of a mapping to one type and float arithmetic rejects strings.
    Exceptions are an explicit error type threaded through a result monad. *)

From Stdlib Require Import ZArith Floats Lia.
From stdpp Require Import base list strings pretty gmap.

Open Scope Z_scope.

(** ** Exceptions and results *)

Inductive exn : Type :=
| ZeroDivisionError
| IndexError
| KeyError
| StopIteration
| AssertionError
| TypeError
| ValueError (msg : string)
| Exception (msg : string).

Inductive result (A : Type) : Type :=
| Ok (a : A)
| Raise (e : exn).
Arguments Ok {A} a.
Arguments Raise {A} e.

Definition bind {A B} (r : result A) (k : A -> result B) : result B :=
  match r with
  | Ok a => k a
  | Raise e => Raise e
  end.

Notation "'let*' x ':=' r 'in' k" := (bind r (fun x => k))
  (at level 10, x pattern, r at level 100, k at level 200).

(** A [for] loop over a list whose body may raise: the first exception
    leaves the loop. *)
Fixpoint for_each {A S} (body : S -> A -> result S) (xs : list A) (s : S)
  : result S :=
  match xs with
  | [] => Ok s
  | x :: xs' => let* s' := body s x in for_each body xs' s'
  end.

(** The names the specification gives to the failures the code produces.
    The code has no exception classes of its own: the top-k guard raises a
    bare [Exception] with a fixed message, and an empty pair loop surfaces as
    the zero division of the final mean. *)
Definition InsufficientWordsError : exn :=
  Exception "Words in topics are less than topk".
Definition NoTopicPairsError : exn := ZeroDivisionError.

(** ** Python numbers *)

(** [float(z)] for a Python int: round-to-nearest conversion to binary64. *)
Definition float_of_Z (z : Z) : float :=
  SF2Prim (SpecFloat.binary_normalize prec emax z 0 false).

Inductive pyval : Type :=
| PyInt (z : Z)          (* Python int *)
| PyFloat (f : float)    (* Python float *)
| NpFloat (f : float).   (* numpy.float64 scalar *)

(** [a + b]: ints stay ints, a float operand makes a float, a numpy operand
    makes a numpy scalar. *)
Definition py_add (a b : pyval) : pyval :=
  match a, b with
  | PyInt x, PyInt y => PyInt (x + y)
  | PyInt x, PyFloat g => PyFloat (float_of_Z x + g)
  | PyFloat f, PyInt y => PyFloat (f + float_of_Z y)
  | PyFloat f, PyFloat g => PyFloat (f + g)
  | PyInt x, NpFloat g => NpFloat (float_of_Z x + g)
  | NpFloat f, PyInt y => NpFloat (f + float_of_Z y)
  | PyFloat f, NpFloat g | NpFloat f, PyFloat g | NpFloat f, NpFloat g =>
      NpFloat (f + g)
  end.

Definition py_sub (a b : pyval) : pyval :=
  match a, b with
  | PyInt x, PyInt y => PyInt (x - y)
  | PyInt x, PyFloat g => PyFloat (float_of_Z x - g)
  | PyFloat f, PyInt y => PyFloat (f - float_of_Z y)
  | PyFloat f, PyFloat g => PyFloat (f - g)
  | PyInt x, NpFloat g => NpFloat (float_of_Z x - g)
  | NpFloat f, PyInt y => NpFloat (f - float_of_Z y)
  | PyFloat f, NpFloat g | NpFloat f, PyFloat g | NpFloat f, NpFloat g =>
      NpFloat (f - g)
  end.

(** [a / b] (true division).  Between Python numbers a zero divisor raises
    [ZeroDivisionError]; as soon as one operand is a numpy scalar the division
    is numpy's, which only warns and returns [inf] or [nan].  (An int by an
    int is divided through their floats, which is Python's quotient for
    operands below 2^53; in this program such a division only ever meets a
    zero divisor.) *)
Definition py_div (a b : pyval) : result pyval :=
  match a, b with
  | PyInt x, PyInt y =>
      if y =? 0 then Raise ZeroDivisionError
      else Ok (PyFloat (float_of_Z x / float_of_Z y))
  | PyInt x, PyFloat g =>
      if PrimFloat.eqb g 0 then Raise ZeroDivisionError
      else Ok (PyFloat (float_of_Z x / g))
  | PyFloat f, PyInt y =>
      if y =? 0 then Raise ZeroDivisionError
      else Ok (PyFloat (f / float_of_Z y))
  | PyFloat f, PyFloat g =>
      if PrimFloat.eqb g 0 then Raise ZeroDivisionError
      else Ok (PyFloat (f / g))
  | PyInt x, NpFloat g => Ok (NpFloat (float_of_Z x / g))
  | NpFloat f, PyInt y => Ok (NpFloat (f / float_of_Z y))
  | PyFloat f, NpFloat g | NpFloat f, PyFloat g | NpFloat f, NpFloat g =>
      Ok (NpFloat (f / g))
  end.

(** ** Sequences *)

(** [l[:k]]: a negative bound counts from the end, and both forms clamp. *)
Definition slice_to {A} (k : Z) (l : list A) : list A :=
  if k <? 0 then take (Z.to_nat (Z.of_nat (length l) + k)) l
  else take (Z.to_nat k) l.

(** [len(l)] as a Python int. *)
Definition len {A} (l : list A) : Z := Z.of_nat (length l).

(** [itertools.combinations(l, 2)]: pairs of positions [i < j], in
    lexicographic order of the positions. *)
Fixpoint combinations2 {A} (l : list A) : list (A * A) :=
  match l with
  | [] => []
  | x :: xs => map (pair x) xs ++ combinations2 xs
  end.

(** ** The evaluation input *)

(** [model_output] is a dict; a key the scorer reads may be missing, and
    [model_output[key]] then raises [KeyError]. *)
Record model_output : Type := {
  topics : option (list (list string));
  topic_word_distribution : option (list (list float))
}.

Definition getitem {A} (field : option A) : result A :=
  match field with
  | Some a => Ok a
  | None => Raise KeyError
  end.

(** ** numpy arrays and the gensim table *)

(** The element types considered: double-precision floats, integers and
    unicode strings. *)
Inductive np_dtype : Type := float64 | int64 | str_.

(** An entry of an array: a float, an int, a string, or the string numpy
    formats a number as when it casts the number to a string dtype. *)
Inductive scalar : Type :=
| Float (f : float)
| Int (z : Z)
| Str (s : string)
| StrOfFloat (f : float)
| StrOfInt (z : Z).

(** An [np.ndarray]: its element type, its shape and its entries in
    row-major order.  A 1-dimensional array of [n] entries has shape
    [[n]]. *)
Record ndarray : Type := {
  dtype : np_dtype;
  shape : list nat;
  data : list scalar
}.

(** A value of the user's mapping: an [np.ndarray], or some other object
    (a list, a scalar, ...) together with the array [np.asanyarray] makes of
    it. *)
Inductive pyobj : Type :=
| NdArray (a : ndarray)
| ArrayLike (a : ndarray).

Definition isinstance_ndarray (o : pyobj) : bool :=
  match o with
  | NdArray _ => true
  | ArrayLike _ => false
  end.

Definition asanyarray (o : pyobj) : ndarray :=
  match o with
  | NdArray a | ArrayLike a => a
  end.

(** [np.promote_types]: the smallest element type both convert to.  A
    string type absorbs numbers, and [float64] absorbs [int64]. *)
Definition promote (d1 d2 : np_dtype) : np_dtype :=
  match d1, d2 with
  | str_, _ | _, str_ => str_
  | float64, _ | _, float64 => float64
  | int64, int64 => int64
  end.

(** [np.result_type] of the arrays of a non-empty list. *)
Definition result_type (ds : list np_dtype) : np_dtype :=
  match ds with
  | [] => float64
  | d :: ds' => foldl promote d ds'
  end.

(** The cast of an entry to the element type [d], along the promotions
    above: an int becomes the float of its value, a number becomes its
    formatted string, and an entry already of type [d] stays. *)
Definition astype (d : np_dtype) (x : scalar) : scalar :=
  match d, x with
  | float64, Int z => Float (float_of_Z z)
  | str_, Float f => StrOfFloat f
  | str_, Int z => StrOfInt z
  | _, _ => x
  end.

(** [np.stack(arrays)]: all inputs must have one shape.  The result has
    one element type, the promotion of the inputs', and is kept as that
    type and its list of rows, one per input (for the 1-dimensional inputs
    that reach it in this program, the input's entries cast to it). *)
Definition np_stack (arrays : list pyobj)
  : result (np_dtype * list (list scalar)) :=
  match arrays with
  | [] => Raise (ValueError "need at least one array to stack")
  | a :: rest =>
      if forallb (fun b => bool_decide (shape (asanyarray b)
                                        = shape (asanyarray a))) rest
      then
        let d := result_type (map (fun b => dtype (asanyarray b)) arrays) in
        Ok (d, map (fun b => map (astype d) (data (asanyarray b))) arrays)
      else Raise (ValueError "all input arrays must have the same shape")
  end.

(** The float64 view numpy takes of an array when it meets float64
    arithmetic: a numeric entry by value; on a string array the operation
    fails with [TypeError] (numpy's [UFuncTypeError]). *)
Definition scalar_float64 (x : scalar) : result float :=
  match x with
  | Float f => Ok f
  | Int z => Ok (float_of_Z z)
  | Str _ | StrOfFloat _ | StrOfInt _ => Raise TypeError
  end.

Fixpoint entries_float64 (xs : list scalar) : result (list float) :=
  match xs with
  | [] => Ok []
  | x :: xs' =>
      let* f := scalar_float64 x in
      let* fs := entries_float64 xs' in
      Ok (f :: fs)
  end.

Definition as_float64 (a : ndarray) : result (list float) :=
  match dtype a with
  | str_ => Raise TypeError
  | _ => entries_float64 (data a)
  end.

(** [np.zeros(n)] *)
Definition np_zeros (n : nat) : list float := replicate n 0%float.

(** numpy's message for two 1-dimensional shapes that do not broadcast. *)
Definition broadcast_error (n m : nat) : exn :=
  ValueError ("operands could not be broadcast together with shapes ("
              +:+ pretty n +:+ ",) (" +:+ pretty m +:+ ",) ").

(** [u + v] on 1-dimensional float64 arrays, with numpy's broadcasting of a
    one-entry operand. *)
Definition np_add (u v : list float) : result (list float) :=
  if decide (length u = length v) then Ok (zip_with PrimFloat.add u v)
  else match u, v with
       | [x], _ => Ok (map (fun y => (x + y)%float) v)
       | _, [y] => Ok (map (fun x => (x + y)%float) u)
       | _, _ => Raise (broadcast_error (length u) (length v))
       end.

(** [u + a] for a float64 array [u] and any array [a]. *)
Definition np_add_array (u : list float) (a : ndarray)
  : result (list float) :=
  let* v := as_float64 a in
  np_add u v.

(** [v * w] and [v / d] for an array and a scalar; numpy's array division
    never raises. *)
Definition np_scale (v : list float) (w : float) : list float :=
  map (fun x => (x * w)%float) v.

(** [a * w] for any array [a] and a float64 scalar [w]. *)
Definition np_scale_array (a : ndarray) (w : float) : result (list float) :=
  let* v := as_float64 a in
  Ok (np_scale v w).

Definition to_float (d : pyval) : float :=
  match d with
  | PyInt z => float_of_Z z
  | PyFloat f | NpFloat f => f
  end.

Definition np_div (v : list float) (d : pyval) : list float :=
  map (fun x => (x / to_float d)%float) v.

(** A Python dict with string keys, in insertion order. *)
Fixpoint dict_get {V} (d : list (string * V)) (k : string) : result V :=
  match d with
  | [] => Raise KeyError
  | (k', v) :: d' => if decide (k' = k) then Ok v else dict_get d' k
  end.

Definition dict_keys {V} (d : list (string * V)) : list string := d.*1.
Definition dict_values {V} (d : list (string * V)) : list V := d.*2.

(** gensim's [KeyedVectors], as far as this program touches it. *)
Record KeyedVectors : Type := {
  vector_size : nat;
  key_to_index : list (string * nat);
  vectors_dtype : np_dtype;          (* vectors.dtype *)
  vectors : list (list scalar)       (* the rows of the 2-d array *)
}.

(** [word in wv.key_to_index.keys()] *)
Definition contains (wv : KeyedVectors) (word : string) : bool :=
  bool_decide (word ∈ dict_keys (key_to_index wv)).

(** [wv[word]]: the row of [vectors] at the word's index, a 1-dimensional
    array of the table's element type. *)
Definition get_vector (wv : KeyedVectors) (word : string) : result ndarray :=
  let* idx := dict_get (key_to_index wv) word in
  match vectors wv !! idx with
  | Some row => Ok {| dtype := vectors_dtype wv;
                      shape := [length row];
                      data := row |}
  | None => Raise IndexError
  end.

(** A numeric entry. *)
Definition is_number (x : scalar) : Prop :=
  match x with
  | Float _ | Int _ => True
  | _ => False
  end.

(** The table invariant gensim maintains: the vectors are numbers, every
    word's index names a row, and every row has [vector_size] entries. *)
Definition kv_wf (wv : KeyedVectors) : Prop :=
  vectors_dtype wv <> str_
  /\ Forall (fun p => exists row, vectors wv !! p.2 = Some row
                                  /\ length row = vector_size wv
                                  /\ Forall is_number row)
            (key_to_index wv).

(** ** utils.py: KeyedVectorsMixin *)

Module KeyedVectorsMixin.

Definition default_model_name : string := "word2vec-google-news-300".

Definition _convert_dict_to_keyedvectors (dic : list (string * pyobj))
  : result KeyedVectors :=
  match dict_values dic with
  | [] => Raise StopIteration                 (* next(iter(...)) *)
  | arr :: _ =>
      if negb (isinstance_ndarray arr) then Raise AssertionError
      else if negb (bool_decide (length (shape (asanyarray arr)) = 1%nat))
      then Raise AssertionError
      else
        let vector_size := hd 0%nat (shape (asanyarray arr)) in
        let key_to_index := imap (fun idx k => (k, idx)) (dict_keys dic) in
        let* stacked := np_stack (dict_values dic) in
        Ok {| vector_size := vector_size;
              key_to_index := key_to_index;
              vectors_dtype := stacked.1;
              vectors := stacked.2 |}
  end.

(** What the caller may pass as [model]. *)
Inductive model_arg : Type :=
| ModelNone
| ModelKeyedVectors (kv : KeyedVectors)
| ModelDict (dic : list (string * pyobj))
| ModelOther.

Section Load.
(** [gensim.downloader.api.load]: the external catalog. *)
Variable api_load : string -> result KeyedVectors.

(** Returns the table stored in [self.wv]. *)
Definition load_keyedvectors (model : model_arg)
    (model_name : option string) : result KeyedVectors :=
  match model with
  | ModelKeyedVectors kv => Ok kv
  | ModelDict dic => _convert_dict_to_keyedvectors dic
  | ModelOther =>
      Raise (ValueError
               "model should be either KeyedVectors or a dictionary.")
  | ModelNone =>
      match model_name with
      | Some name => api_load name
      | None => api_load default_model_name
      end
  end.
End Load.

End KeyedVectorsMixin.

(** ** PairwiseJaccardSimilarity *)

Module PairwiseJaccardSimilarity.

(** [len(list(set(list1[:topk]).intersection(list2[:topk])))] *)
Definition intersection (topk : Z) (list1 list2 : list string) : Z :=
  Z.of_nat (size (list_to_set (slice_to topk list1)
                    ∩ list_to_set (slice_to topk list2) : gset string)).

(** [(len(list1[:topk]) + len(list2[:topk])) - intersection] *)
Definition union (topk : Z) (list1 list2 : list string) : Z :=
  (len (slice_to topk list1) + len (slice_to topk list2))
  - intersection topk list1 list2.

(** [float(intersection) / union] *)
Definition pair_score (topk : Z) (list1 list2 : list string)
  : result pyval :=
  py_div (PyFloat (float_of_Z (intersection topk list1 list2)))
         (PyInt (union topk list1 list2)).

(** One turn of the pair loop on the state [(sim, count)]. *)
Definition body (topk : Z) (st : pyval * Z) (p : list string * list string)
  : result (pyval * Z) :=
  let '(sim, count) := st in
  let count := count + 1 in
  let* q := pair_score topk p.1 p.2 in
  Ok (py_add sim q, count).

Definition score (topk : Z) (mo : model_output) : result pyval :=
  let* topics := getitem (topics mo) in
  let* st := for_each (body topk) (combinations2 topics) (PyInt 0, 0) in
  py_div st.1 (PyInt st.2).

End PairwiseJaccardSimilarity.

(** ** WordEmbeddingsPairwiseSimilarity *)

Module WordEmbeddingsPairwiseSimilarity.
Section Scorer.
Variable wv : KeyedVectors.
(** [wv.similarity] (gensim): the cosine similarity of two vocabulary
    words, a numpy scalar.  The scorer calls it on vocabulary words
    only. *)
Variable similarity : string -> string -> pyval.
Variable topk : Z.

(** The body of the two word loops on the state [(sim, word_counts)]. *)
Definition word_step (word1 : string) (st : pyval * Z) (word2 : string)
  : pyval * Z :=
  if contains wv word1 && contains wv word2
  then (py_add st.1 (similarity word1 word2), st.2 + 1)
  else st.

Definition word_loops (list1 list2 : list string) : pyval * Z :=
  foldl (fun st word1 => foldl (word_step word1) st (slice_to topk list2))
        (PyInt 0, 0) (slice_to topk list1).

(** [sim = sim / word_counts] *)
Definition pair_sim (list1 list2 : list string) : result pyval :=
  let st := word_loops list1 list2 in
  py_div st.1 (PyInt st.2).

(** One turn of the pair loop on the state [(sum_sim, count)]. *)
Definition body (st : pyval * Z) (p : list string * list string)
  : result (pyval * Z) :=
  let* sim := pair_sim p.1 p.2 in
  Ok (py_add st.1 sim, st.2 + 1).

Definition score (mo : model_output) : result pyval :=
  let* topics := getitem (topics mo) in
  match topics with
  | [] => Raise IndexError                          (* topics[0] *)
  | topic0 :: _ =>
      if topk >? len topic0
      then Raise (Exception "Words in topics are less than topk")
      else
        let* st := for_each body (combinations2 topics) (PyInt 0, 0) in
        py_div st.1 (PyInt st.2)
  end.
End Scorer.
End WordEmbeddingsPairwiseSimilarity.

(** ** WordEmbeddingsCentroidSimilarity *)

Module WordEmbeddingsCentroidSimilarity.
Section Scorer.
Variable wv : KeyedVectors.
(** [scipy.spatial.distance.cosine]: the cosine distance of two
    vectors. *)
Variable cosine : list float -> list float -> pyval.
Variable topk : Z.

(** The body of a word loop on the state [(centroid, count)]. *)
Definition word_step (st : list float * Z) (word : string)
  : result (list float * Z) :=
  if contains wv word
  then
    let* a := get_vector wv word in
    let* c := np_add_array st.1 a in
    Ok (c, st.2 + 1)
  else Ok st.

Definition word_loop (list1 : list string) : result (list float * Z) :=
  for_each word_step (slice_to topk list1) (np_zeros (vector_size wv), 0).

(** One turn of the pair loop on the state [(sim, count)]. *)
Definition body (st : pyval * Z) (p : list string * list string)
  : result (pyval * Z) :=
  let* st1 := word_loop p.1 in
  let* st2 := word_loop p.2 in
  let centroid1 := np_div st1.1 (PyInt st1.2) in
  let centroid2 := np_div st2.1 (PyInt st2.2) in
  Ok (py_add st.1 (py_sub (PyInt 1) (cosine centroid1 centroid2)),
      st.2 + 1).

Definition score (mo : model_output) : result pyval :=
  let* topics := getitem (topics mo) in
  match topics with
  | [] => Raise IndexError                          (* topics[0] *)
  | topic0 :: _ =>
      if topk >? len topic0
      then Raise (Exception "Words in topics are less than topk")
      else
        let* st := for_each body (combinations2 topics) (PyInt 0, 0) in
        py_div st.1 (PyInt st.2)
  end.
End Scorer.
End WordEmbeddingsCentroidSimilarity.

(** ** WordEmbeddingsWeightedSumSimilarity *)

Module WordEmbeddingsWeightedSumSimilarity.
Section Scorer.
Variable wv : KeyedVectors.
Variable cosine : list float -> list float -> pyval.
(** [id2word]: the dict from vocabulary id to word. *)
Variable id2word : gmap nat string.

Definition id2word_getitem (id_beta : nat) : result string :=
  match id2word !! id_beta with
  | Some word => Ok word
  | None => Raise KeyError
  end.

(** The body of a weight loop on the state [(centroid, weights)]; the
    loop runs over [enumerate(row)]. *)
Definition weight_step (st : list float * pyval) (iw : nat * float)
  : result (list float * pyval) :=
  let* word := id2word_getitem iw.1 in
  let* a := get_vector wv word in
  let* v := np_scale_array a iw.2 in
  let* c := np_add st.1 v in
  Ok (c, py_add st.2 (NpFloat iw.2)).

(** A weight loop followed by [centroid / weights]. *)
Definition weighted_centroid (row : list float) : result (list float) :=
  let* st := for_each weight_step (imap pair row)
               (np_zeros (vector_size wv), PyInt 0) in
  Ok (np_div st.1 st.2).

Definition row_getitem (beta : list (list float)) (i : nat)
  : result (list float) :=
  match beta !! i with
  | Some row => Ok row
  | None => Raise IndexError
  end.

(** The value one turn of the pair loop adds to [wess].  Both weight
    loops of the source read [beta[i]]. *)
Definition pair_value (beta : list (list float)) (i j : nat)
  : result pyval :=
  let* row1 := row_getitem beta i in
  let* centroid1 := weighted_centroid row1 in
  let* row2 := row_getitem beta i in
  let* centroid2 := weighted_centroid row2 in
  Ok (cosine centroid1 centroid2).

(** One turn of the pair loop on the state [(wess, count)]: [count] is
    not assigned in the loop. *)
Definition body (beta : list (list float)) (st : pyval * Z)
    (ij : nat * nat) : result (pyval * Z) :=
  let* d := pair_value beta ij.1 ij.2 in
  Ok (py_add st.1 d, st.2).

(** The pair loop over [combinations(range(len(beta)), 2)], from
    [wess = 0] and [count = 0]. *)
Definition pair_loop (beta : list (list float)) : result (pyval * Z) :=
  for_each (body beta) (combinations2 (seq 0 (length beta))) (PyInt 0, 0).

Definition score (mo : model_output) : result pyval :=
  let* beta := getitem (topic_word_distribution mo) in
  let* st := pair_loop beta in
  py_div st.1 (PyInt st.2).
End Scorer.
End WordEmbeddingsWeightedSumSimilarity.

(** ** The rank-biased-overlap wrappers *)

(** The three wrapped diversity metrics live in
    [octis.evaluation_metrics.diversity_metrics]; each wrapper only calls its
    parent's [score], which is a parameter here. *)
Module WordEmbeddingsRBOMatch.
Section Scorer.
(** [WordEmbeddingsInvertedRBO.score] on this instance. *)
Variable super_score : model_output -> result pyval.

Definition score (mo : model_output) : result pyval :=
  let* d := super_score mo in
  Ok (py_sub (PyInt 1) d).
End Scorer.
End WordEmbeddingsRBOMatch.

Module WordEmbeddingsRBOCentroid.
Section Scorer.
(** [WordEmbeddingsInvertedRBOCentroid.score] on this instance. *)
Variable super_score : model_output -> result pyval.

Definition score (mo : model_output) : result pyval :=
  let* d := super_score mo in
  Ok (py_sub (PyInt 1) d).
End Scorer.
End WordEmbeddingsRBOCentroid.

Module RBO.
Section Scorer.
(** [InvertedRBO.score] on this instance. *)
Variable super_score : model_output -> result pyval.

Definition score (mo : model_output) : result pyval :=
  let* d := super_score mo in
  Ok (py_sub (PyInt 1) d).
End Scorer.
End RBO.

(** ** The external numeric routines, for running the scorers *)

(** [np.dot] of two 1-dimensional arrays, summed left to right. *)
Definition np_dot (u v : list float) : float :=
  foldl (fun acc xy => (acc + xy.1 * xy.2)%float) 0%float (zip u v).

(** scipy's [cosine(u, v)]: [1.0 - u.v / sqrt(u.u * v.v)], a numpy scalar. *)
Definition scipy_cosine (u v : list float) : pyval :=
  NpFloat (1 - np_dot u v / PrimFloat.sqrt (np_dot u u * np_dot v v))%float.

(** gensim's [unitvec]: scale to length one, leaving a zero vector alone. *)
Definition unitvec (v : list float) : list float :=
  let veclen := PrimFloat.sqrt (np_dot v v) in
  if PrimFloat.ltb 0 veclen then np_scale v (1 / veclen)%float else v.

(** gensim's [similarity(w1, w2)]: [dot(unitvec(wv[w1]), unitvec(wv[w2]))].
    Outside the vocabulary gensim raises; the scorers never ask there, and
    this total version answers [nan]. *)
Definition gensim_similarity (wv : KeyedVectors) (w1 w2 : string) : pyval :=
  match bind (get_vector wv w1) as_float64,
        bind (get_vector wv w2) as_float64 with
  | Ok u, Ok v => NpFloat (np_dot (unitvec u) (unitvec v))
  | _, _ => NpFloat nan
  end.

(** ** What the specification asks for, where the code is compared to it *)

Module WeightedCentroidSimilarity_spec.
Section Spec.
Variable wv : KeyedVectors.
Variable cosine : list float -> list float -> pyval.
Variable id2word : gmap nat string.

(** Spec 4.4: the first centroid from row [i], the second from row [j], and
    their cosine distance. *)
Definition pair_value (beta : list (list float)) (i j : nat)
  : result pyval :=
  let* row1 := WordEmbeddingsWeightedSumSimilarity.row_getitem beta i in
  let* centroid1 :=
    WordEmbeddingsWeightedSumSimilarity.weighted_centroid wv id2word row1 in
  let* row2 := WordEmbeddingsWeightedSumSimilarity.row_getitem beta j in
  let* centroid2 :=
    WordEmbeddingsWeightedSumSimilarity.weighted_centroid wv id2word row2 in
  Ok (cosine centroid1 centroid2).

(** Spec 4.4: the accumulated pair values over the number of unordered
    pairs of distinct rows.  The accumulated values are the code's own. *)
Definition mean_over_pairs (mo : model_output) : result pyval :=
  let* beta := getitem (topic_word_distribution mo) in
  let* st := WordEmbeddingsWeightedSumSimilarity.pair_loop
               wv cosine id2word beta in
  py_div st.1 (PyInt (len (combinations2 (seq 0 (length beta))))).
End Spec.
End WeightedCentroidSimilarity_spec.

Module JaccardOverlap_spec.

(** Spec 4.5: each top-k slice as a set. *)
Definition top_k (topk : Z) (l : list string) : gset string :=
  list_to_set (slice_to topk l).

(** [|A ∩ B| / (|A| + |B| - |A ∩ B|)] on the two sets. *)
Definition pair_score (topk : Z) (list1 list2 : list string)
  : result pyval :=
  let inter := Z.of_nat (size (top_k topk list1 ∩ top_k topk list2)) in
  py_div (PyFloat (float_of_Z inter))
         (PyInt (Z.of_nat (size (top_k topk list1))
                 + Z.of_nat (size (top_k topk list2)) - inter)).

End JaccardOverlap_spec.

(** ** Derived notions used in the statements *)

(** The centroid the centroid scorer builds for one topic: its word loop
    followed by [centroid / count]. *)
Definition topic_centroid (wv : KeyedVectors) (topk : Z) (t : list string)
  : result (list float) :=
  let* st := WordEmbeddingsCentroidSimilarity.word_loop wv topk t in
  Ok (np_div st.1 (PyInt st.2)).

(** Every value of a mapping is a 1-dimensional vector, all of one
    length. *)
Definition vectors_of_one_length (values : list pyobj) : Prop :=
  exists n : nat, Forall (fun o => shape (asanyarray o) = [n]) values.

(** [0.0 + 1.0 + ... + 1.0] with [n] ones, in binary64. *)
Definition float_count_ones (n : nat) : float :=
  Nat.iter n (fun acc => (acc + 1)%float) 0%float.

(** The binary64 mean of [n] ones. *)
Definition float_mean_of_ones (n : nat) : float :=
  (float_count_ones n / float_of_Z (Z.of_nat n))%float.

(** A run of the counting loop that checks, for each of the next [fuel]
    counts after [k], that the mean of that many ones is exactly [1.0]. *)
Fixpoint count_check (fuel k : nat) (acc : float) : bool :=
  match fuel with
  | O => true
  | S fuel' =>
      let acc' := (acc + 1)%float in
      Leibniz.eqb (acc' / float_of_Z (Z.of_nat (S k)))%float 1%float
      && count_check fuel' (S k) acc'
  end.



(** ** Example inputs *)

(** Two words with orthogonal unit embeddings. *)
Definition ex_dic : list (string * pyobj) :=
  [("a", NdArray {| dtype := float64; shape := [2%nat];
                    data := [Float 1; Float 0] |});
   ("b", NdArray {| dtype := float64; shape := [2%nat];
                    data := [Float 0; Float 1] |})].

Definition ex_wv : KeyedVectors :=
  {| vector_size := 2;
     key_to_index := [("a", 0%nat); ("b", 1%nat)];
     vectors_dtype := float64;
     vectors := [[Float 1; Float 0]; [Float 0; Float 1]] |}.

(** Two words with parallel embeddings, and one on the diagonal. *)
Definition ex_wv_parallel : KeyedVectors :=
  {| vector_size := 2;
     key_to_index := [("a", 0%nat); ("b", 1%nat); ("c", 2%nat)];
     vectors_dtype := float64;
     vectors := [[Float 1; Float 0]; [Float 2; Float 0];
                 [Float 1; Float 1]] |}.

Definition ex_id2word : gmap nat string := {[ 0%nat := "a"; 1%nat := "b" ]}.

(** Two topics, each all of its mass on one word. *)
Definition ex_beta : list (list float) :=
  [[1%float; 0%float]; [0%float; 1%float]].

Definition with_topics (ts : list (list string)) : model_output :=
  {| topics := Some ts; topic_word_distribution := None |}.

Definition with_distribution (beta : list (list float)) : model_output :=
  {| topics := None; topic_word_distribution := Some beta |}.

(** ** get_word2index *)

Section Word2Index.
(** The order in which Python iterates over a set of strings: any
    enumeration of the set, fixed by the interpreter and not by the
    program. *)
Variable order : gset string -> list string.

(** [{w: i for i, w in enumerate(words)}] over the union of the two
    lists' words. *)
Definition get_word2index (list1 list2 : list string)
  : list (string * nat) :=
  let words : gset string := list_to_set list1 in
  let words := words ∪ list_to_set list2 in
  imap (fun i w => (w, i)) (order words).
End Word2Index.

(** ** Constructors *)

(** What [__init__] leaves in an embedding scorer: [self.topk] and the
    table [self.wv]. *)
Record embedding_scorer : Type := {
  self_topk : Z;
  self_wv : KeyedVectors
}.

(** The weighted-sum scorer also keeps [self.id2word]. *)
Record weighted_scorer : Type := {
  ws_topk : Z;
  ws_id2word : gmap nat string;
  ws_wv : KeyedVectors
}.

Section Init.
Variable api_load : string -> result KeyedVectors.

(** [WordEmbeddingsPairwiseSimilarity.__init__(topk, model, model_name)]:
    [self.topk = topk; self.load_keyedvectors(model, model_name)]. *)
Definition WordEmbeddingsPairwiseSimilarity__init__ (topk : Z)
    (model : KeyedVectorsMixin.model_arg) (model_name : option string)
  : result embedding_scorer :=
  let* wv := KeyedVectorsMixin.load_keyedvectors api_load model model_name in
  Ok {| self_topk := topk; self_wv := wv |}.

(** [WordEmbeddingsCentroidSimilarity.__init__], the same two
    statements. *)
Definition WordEmbeddingsCentroidSimilarity__init__ (topk : Z)
    (model : KeyedVectorsMixin.model_arg) (model_name : option string)
  : result embedding_scorer :=
  let* wv := KeyedVectorsMixin.load_keyedvectors api_load model model_name in
  Ok {| self_topk := topk; self_wv := wv |}.

(** [WordEmbeddingsWeightedSumSimilarity.__init__(id2word, topk, model,
    model_name)]. *)
Definition WordEmbeddingsWeightedSumSimilarity__init__
    (id2word : gmap nat string) (topk : Z)
    (model : KeyedVectorsMixin.model_arg) (model_name : option string)
  : result weighted_scorer :=
  let* wv := KeyedVectorsMixin.load_keyedvectors api_load model model_name in
  Ok {| ws_topk := topk; ws_id2word := id2word; ws_wv := wv |}.
End Init.

(** ** Notions for the further properties *)

(** An entry that belongs in an array of element type [d]. *)
Definition has_dtype (d : np_dtype) (x : scalar) : Prop :=
  match d, x with
  | float64, Float _ => True
  | int64, Int _ => True
  | str_, (Str _ | StrOfFloat _ | StrOfInt _) => True
  | _, _ => False
  end.

(** An array whose entries all belong to its element type. *)
Definition well_typed (a : ndarray) : Prop :=
  Forall (has_dtype (dtype a)) (data a).

(** An array of numbers. *)
Definition numeric (a : ndarray) : Prop :=
  dtype a <> str_ /\ Forall is_number (data a).

(** The entries of an array are as many as its shape says. *)
Definition ndarray_wf (a : ndarray) : Prop :=
  length (data a) = foldr Nat.mul 1%nat (shape a).

(** A result that, when it is an exception, is one of [allowed]. *)
Definition raises_only {A} (allowed : list exn) (r : result A) : Prop :=
  match r with
  | Ok _ => True
  | Raise e => e ∈ allowed
  end.

(** The top-k words of a topic that are in the vocabulary. *)
Definition vocabulary_words (wv : KeyedVectors) (topk : Z)
    (t : list string) : list string :=
  filter (fun w => contains wv w = true) (slice_to topk t).

(** A vocabulary id of a row whose word the table can look up. *)
Definition resolves (wv : KeyedVectors) (id2word : gmap nat string)
    (id_beta : nat) : Prop :=
  exists word, id2word !! id_beta = Some word /\ contains wv word = true.

(** * Properties *)

(** Entering a scorer on a [model_output] whose [topics] are known. *)
Ltac read_topics H := rewrite H; simpl getitem; cbn [bind].

(** A concrete table is well formed: look at each vocabulary entry. *)
Ltac check_numbers :=
  repeat (apply Forall_cons_2; [exact I|]); apply Forall_nil_2.
Ltac check_kv_wf :=
  split;
  [discriminate
  |repeat (apply Forall_cons_2;
           [eexists; split; [reflexivity|]; split;
            [reflexivity | check_numbers]|]);
   apply Forall_nil_2].

(** ** Loops and pairs *)

(** An exception leaving a loop was raised by one of its turns. *)
Lemma for_each_Raise {A S} (body : S -> A -> result S) xs (s : S) e :
  for_each body xs s = Raise e ->
  exists s' x, x ∈ xs /\ body s' x = Raise e.
Proof.
  revert s. induction xs as [|x xs IH]; intros s; simpl; [discriminate|].
  destruct (body s x) as [s1|e1] eqn:Hb; simpl.
  - intros H. destruct (IH _ H) as (s' & y & Hy & Hr).
    exists s', y. split; [by right | done].
  - intros [= ->]. exists s, x. split; [by left | done].
Qed.

(** A loop whose turns can only fail with [e0], and one of whose turns fails
    whatever the state, fails with [e0]. *)
Lemma for_each_must_raise {A S} (body : S -> A -> result S) xs (s : S) e0 x :
  (forall s' y, y ∈ xs -> (exists s'', body s' y = Ok s'')
                         \/ body s' y = Raise e0) ->
  x ∈ xs -> (forall s', body s' x = Raise e0) ->
  for_each body xs s = Raise e0.
Proof.
  intros Hall Hx Hfail. revert s.
  induction xs as [|y ys IH]; intros s; [by apply elem_of_nil in Hx|].
  simpl. apply elem_of_cons in Hx as [<-|Hx].
  - by rewrite Hfail.
  - destruct (Hall s y) as [[s'' ->]| ->]; [by left | | done].
    simpl. apply IH; [|done]. intros s' z Hz. apply Hall. by right.
Qed.

Lemma combinations2_length {A} (l : list A) :
  (2 * length (combinations2 l) = length l * (length l - 1))%nat.
Proof.
  induction l as [|x xs IH]; simpl; [done|].
  rewrite length_app, length_map. nia.
Qed.

Lemma combinations2_short {A} (l : list A) :
  (length l < 2)%nat -> combinations2 l = [].
Proof. destruct l as [|x [|y l]]; simpl; [done | done | lia]. Qed.


(** ** Division *)

(** The only exception a division raises. *)
Lemma py_div_Raise (a b : pyval) e :
  py_div a b = Raise e -> e = ZeroDivisionError.
Proof.
  destruct a, b; simpl; repeat case_match; congruence.
Qed.

(** ** The rank-biased-overlap wrappers *)

(** What [1 - d] is for each kind of number a diversity metric can
    return: the int difference, or the binary64 difference from [1.0]. *)
Lemma one_minus (d : pyval) :
  py_sub (PyInt 1) d
  = match d with
    | PyInt z => PyInt (1 - z)
    | PyFloat f => PyFloat (1 - f)
    | NpFloat f => NpFloat (1 - f)
    end.
Proof. by destruct d. Qed.

(** C9. Each ranked-overlap wrapper returns one minus the diversity the
    wrapped metric returns on the same [model_output], and nothing else: a
    Python float [f] gives the Python float [1.0 - f] (binary64
    subtraction), a numpy scalar the numpy scalar [1.0 - f], an int [z] the
    int [1 - z]; an exception of the wrapped metric is passed on.  In
    particular diversity [0.0] gives similarity [1.0] and diversity [1.0]
    gives [0.0]. *)
Theorem C9_wrappers_one_minus_diversity
    (WordEmbeddingsInvertedRBO_score
       WordEmbeddingsInvertedRBOCentroid_score
       InvertedRBO_score : model_output -> result pyval)
    (mo : model_output) :
  let one_minus_diversity (diversity : result pyval) : result pyval :=
    match diversity with
    | Ok (PyFloat f) => Ok (PyFloat (1 - f))
    | Ok (NpFloat f) => Ok (NpFloat (1 - f))
    | Ok (PyInt z) => Ok (PyInt (1 - z))
    | Raise e => Raise e
    end in
  WordEmbeddingsRBOMatch.score WordEmbeddingsInvertedRBO_score mo
    = one_minus_diversity (WordEmbeddingsInvertedRBO_score mo)
  /\ WordEmbeddingsRBOCentroid.score WordEmbeddingsInvertedRBOCentroid_score mo
    = one_minus_diversity (WordEmbeddingsInvertedRBOCentroid_score mo)
  /\ RBO.score InvertedRBO_score mo
    = one_minus_diversity (InvertedRBO_score mo)
  /\ one_minus_diversity (Ok (PyFloat 0)) = Ok (PyFloat 1)
  /\ one_minus_diversity (Ok (PyFloat 1)) = Ok (PyFloat 0)
  /\ one_minus_diversity (Ok (PyFloat 0.25)) = Ok (PyFloat 0.75).
Proof.
  intros one_minus_diversity.
  unfold WordEmbeddingsRBOMatch.score, WordEmbeddingsRBOCentroid.score,
    RBO.score.
  repeat split; try reflexivity;
    match goal with |- context [bind ?r _] => destruct r as [d|e] end;
    cbn [bind]; try reflexivity; by rewrite one_minus; destruct d.
Qed.

(** ** The top-k guard and scoring with too few topics *)

Lemma WEPS_body_Raise wv similarity topk st p e :
  WordEmbeddingsPairwiseSimilarity.body wv similarity topk st p = Raise e ->
  e = ZeroDivisionError.
Proof.
  unfold WordEmbeddingsPairwiseSimilarity.body,
    WordEmbeddingsPairwiseSimilarity.pair_sim.
  destruct (py_div _ _) eqn:Hd; simpl; [discriminate|].
  intros [= <-]. by eapply py_div_Raise.
Qed.

Lemma get_vector_Raise wv word e :
  get_vector wv word = Raise e -> e = KeyError \/ e = IndexError.
Proof.
  unfold get_vector.
  assert (Hd : forall (d : list (string * nat)) i,
             dict_get d word = Raise i -> i = KeyError).
  { induction d as [|[k v] d IH]; simpl; intros i; [congruence|].
    case_decide; [discriminate | apply IH]. }
  destruct (dict_get _ _) as [idx|e'] eqn:Hg; simpl.
  - destruct (_ !! _); [discriminate | intros [= <-]; by right].
  - intros [= <-]. left. by eapply Hd.
Qed.

Lemma np_add_Raise u v e :
  np_add u v = Raise e -> e = broadcast_error (length u) (length v).
Proof.
  unfold np_add. case_decide; [discriminate|].
  destruct u as [|x [|x' u]], v as [|y [|y' v]]; simpl; congruence.
Qed.

Lemma entries_float64_Raise xs e :
  entries_float64 xs = Raise e -> e = TypeError.
Proof.
  induction xs as [|x xs IH]; simpl; [discriminate|].
  destruct x; simpl; try (by intros [= <-]);
    destruct (entries_float64 xs); simpl; try discriminate;
    intros [= <-]; by apply IH.
Qed.

Lemma as_float64_Raise a e : as_float64 a = Raise e -> e = TypeError.
Proof.
  unfold as_float64.
  destruct (dtype a); try apply entries_float64_Raise. by intros [= <-].
Qed.

(** What adding a table row to a float64 array can raise. *)
Lemma np_add_array_Raise u a e :
  np_add_array u a = Raise e ->
  e = TypeError \/ exists n m, e = broadcast_error n m.
Proof.
  unfold np_add_array.
  destruct (as_float64 a) as [v|e1] eqn:Ha; simpl.
  - intros H%np_add_Raise. right. eauto.
  - intros [= <-]. left. by eapply as_float64_Raise.
Qed.

Lemma WECS_word_step_Raise wv st word e :
  WordEmbeddingsCentroidSimilarity.word_step wv st word = Raise e ->
  e <> InsufficientWordsError.
Proof.
  unfold WordEmbeddingsCentroidSimilarity.word_step.
  destruct (contains wv word); [|discriminate].
  destruct (get_vector wv word) as [a|e1] eqn:Hg; simpl.
  - destruct (np_add_array st.1 a) as [c|e2] eqn:Ha; simpl; [discriminate|].
    intros [= <-].
    by destruct (np_add_array_Raise _ _ _ Ha) as [-> | (n & m & ->)].
  - intros [= <-]. by destruct (get_vector_Raise _ _ _ Hg) as [-> | ->].
Qed.

Lemma WECS_body_Raise wv cosine topk st p e :
  WordEmbeddingsCentroidSimilarity.body wv cosine topk st p = Raise e ->
  e <> InsufficientWordsError.
Proof.
  unfold WordEmbeddingsCentroidSimilarity.body,
    WordEmbeddingsCentroidSimilarity.word_loop.
  destruct (for_each _ (slice_to topk p.1) _) as [st1|e1] eqn:H1; simpl.
  - destruct (for_each _ (slice_to topk p.2) _) as [st2|e2] eqn:H2; simpl;
      [discriminate|].
    intros [= <-]. apply for_each_Raise in H2 as (s' & w & _ & Hw).
    by eapply WECS_word_step_Raise.
  - intros [= <-]. apply for_each_Raise in H1 as (s' & w & _ & Hw).
    by eapply WECS_word_step_Raise.
Qed.

(** The Jaccard scorer raises nothing but a missing key and a zero
    division. *)
Lemma PJS_score_Raise (topk : Z) (mo : model_output) e :
  PairwiseJaccardSimilarity.score topk mo = Raise e ->
  e = KeyError \/ e = ZeroDivisionError.
Proof.
  unfold PairwiseJaccardSimilarity.score.
  destruct (getitem (topics mo)) as [ts|e0] eqn:Hg; cbn [bind].
  - intros H. right.
    destruct (for_each _ _ _) as [st|e1] eqn:Hl; cbn [bind] in H.
    + by eapply py_div_Raise.
    + injection H as ->.
      apply for_each_Raise in Hl as ([sim count] & p & _ & Hb).
      unfold PairwiseJaccardSimilarity.body,
        PairwiseJaccardSimilarity.pair_score in Hb.
      destruct (py_div _ _) as [v|e'] eqn:Hd; [discriminate|].
      injection Hb as <-. by eapply py_div_Raise.
  - intros [= <-]. left. destruct (topics mo); simpl in Hg; congruence.
Qed.

(** C6, as stated, fails: the Jaccard scorer also truncates to [topk] but
    has no guard; with [topk = 5] and a first topic of one word it returns
    a value. *)
Lemma C6_jaccard_has_no_guard :
  5 > len ["a"]
  /\ PairwiseJaccardSimilarity.score 5 (with_topics [["a"]; ["a"; "b"]])
     = Ok (PyFloat 0.5).
Proof. split; vm_compute; reflexivity. Qed.

(** C6, amended. With a first topic [t0], WordEmbeddingsPairwiseSimilarity
    and WordEmbeddingsCentroidSimilarity fail with the insufficient-words
    exception exactly when [topk > len(t0)]: the check looks at the first
    topic only, whatever the lengths of the others.
    PairwiseJaccardSimilarity has no such check and never raises that
    exception. *)
Theorem C6_topk_guard_on_first_topic
    (wv : KeyedVectors) (similarity : string -> string -> pyval)
    (cosine : list float -> list float -> pyval)
    (topk : Z) (mo : model_output) (t0 : list string)
    (rest : list (list string)) :
  topics mo = Some (t0 :: rest) ->
  (WordEmbeddingsPairwiseSimilarity.score wv similarity topk mo
     = Raise InsufficientWordsError <-> topk > len t0)
  /\ (WordEmbeddingsCentroidSimilarity.score wv cosine topk mo
     = Raise InsufficientWordsError <-> topk > len t0)
  /\ PairwiseJaccardSimilarity.score topk mo <> Raise InsufficientWordsError.
Proof.
  intros Hts.
  assert (HJ : PairwiseJaccardSimilarity.score topk mo
               <> Raise InsufficientWordsError).
  { intros H. by destruct (PJS_score_Raise _ _ _ H). }
  apply and_assoc. split; [|exact HJ]. clear HJ.
  unfold WordEmbeddingsPairwiseSimilarity.score,
    WordEmbeddingsCentroidSimilarity.score.
  read_topics Hts.
  destruct (Z.gtb_spec topk (len t0)) as [Hgt|Hle].
  - split; (split; [lia | reflexivity]).
  - split; (split; [|lia]); intros H; exfalso.
    + destruct (for_each _ _ _) as [st|e] eqn:Hl; simpl in H.
      * apply py_div_Raise in H. discriminate.
      * injection H as ->. apply for_each_Raise in Hl as (s' & p & _ & Hb).
        apply WEPS_body_Raise in Hb. discriminate.
    + destruct (for_each _ _ _) as [st|e] eqn:Hl; simpl in H.
      * apply py_div_Raise in H. discriminate.
      * injection H as ->. apply for_each_Raise in Hl as (s' & p & _ & Hb).
        by apply WECS_body_Raise in Hb.
Qed.

Lemma C6_topk_guard_witness :
  (WordEmbeddingsPairwiseSimilarity.score ex_wv (gensim_similarity ex_wv) 3
     (with_topics [["a"; "b"]; ["a"; "b"; "a"; "b"]])
     = Raise InsufficientWordsError <-> 3 > len ["a"; "b"])
  /\ (WordEmbeddingsCentroidSimilarity.score ex_wv scipy_cosine 3
     (with_topics [["a"; "b"]; ["a"; "b"; "a"; "b"]])
     = Raise InsufficientWordsError <-> 3 > len ["a"; "b"])
  /\ PairwiseJaccardSimilarity.score 3
       (with_topics [["a"; "b"]; ["a"; "b"; "a"; "b"]])
     <> Raise InsufficientWordsError.
Proof.
  apply (C6_topk_guard_on_first_topic ex_wv (gensim_similarity ex_wv)
           scipy_cosine 3 _ ["a"; "b"] [["a"; "b"; "a"; "b"]]).
  reflexivity.
Defined.

(** The Jaccard scorer has no such guard: a short topic is sliced short. *)
Example jaccard_no_guard :
  PairwiseJaccardSimilarity.score 2 (with_topics [["a"]; ["b"]])
  = Ok (PyFloat 0).
Proof. vm_compute. reflexivity. Qed.

(** C3, as stated, fails: with one topic shorter than [topk] the embedding
    scorers raise the insufficient-words exception, and with no topic at all
    they raise [IndexError] from [topics[0]]; neither is the failure of an
    empty pair loop. *)
Lemma C3_not_always_no_topic_pairs :
  WordEmbeddingsPairwiseSimilarity.score ex_wv (gensim_similarity ex_wv) 2
    (with_topics [["a"]]) = Raise InsufficientWordsError
  /\ WordEmbeddingsCentroidSimilarity.score ex_wv scipy_cosine 2
    (with_topics [["a"]]) = Raise InsufficientWordsError
  /\ WordEmbeddingsPairwiseSimilarity.score ex_wv (gensim_similarity ex_wv) 1
    (with_topics []) = Raise IndexError
  /\ WordEmbeddingsCentroidSimilarity.score ex_wv scipy_cosine 1
    (with_topics []) = Raise IndexError
  /\ InsufficientWordsError <> NoTopicPairsError
  /\ IndexError <> NoTopicPairsError.
Proof. repeat split; try reflexivity; discriminate. Qed.

(** C3, amended. With fewer than two topics every pairwise scorer fails.
    The Jaccard scorer always fails with the zero division of the final
    mean.  The two embedding scorers fail with [IndexError] when there is no
    topic, with the insufficient-words exception when [topk] exceeds the
    single topic's length, and with the zero division of the final mean
    otherwise. *)
Theorem C3_fewer_than_two_topics
    (wv : KeyedVectors) (similarity : string -> string -> pyval)
    (cosine : list float -> list float -> pyval)
    (topk : Z) (mo : model_output) (ts : list (list string)) :
  topics mo = Some ts ->
  (length ts < 2)%nat ->
  let embedding_failure : result pyval :=
    match ts with
    | [] => Raise IndexError
    | t0 :: _ => if topk >? len t0 then Raise InsufficientWordsError
                 else Raise NoTopicPairsError
    end in
  PairwiseJaccardSimilarity.score topk mo = Raise NoTopicPairsError
  /\ WordEmbeddingsPairwiseSimilarity.score wv similarity topk mo
     = embedding_failure
  /\ WordEmbeddingsCentroidSimilarity.score wv cosine topk mo
     = embedding_failure.
Proof.
  intros Hts Hlen.
  unfold PairwiseJaccardSimilarity.score,
    WordEmbeddingsPairwiseSimilarity.score,
    WordEmbeddingsCentroidSimilarity.score.
  read_topics Hts.
  rewrite (combinations2_short ts Hlen). simpl.
  destruct ts as [|t0 ts']; [done|].
  destruct (topk >? len t0); done.
Qed.

Lemma C3_fewer_than_two_topics_witness :
  PairwiseJaccardSimilarity.score 1 (with_topics [["a"; "b"]])
    = Raise NoTopicPairsError
  /\ WordEmbeddingsPairwiseSimilarity.score ex_wv (gensim_similarity ex_wv) 1
       (with_topics [["a"; "b"]]) = Raise NoTopicPairsError
  /\ WordEmbeddingsCentroidSimilarity.score ex_wv scipy_cosine 1
       (with_topics [["a"; "b"]]) = Raise NoTopicPairsError.
Proof.
  apply (C3_fewer_than_two_topics ex_wv (gensim_similarity ex_wv)
           scipy_cosine 1 (with_topics [["a"; "b"]]) [["a"; "b"]]).
  - reflexivity.
  - simpl. lia.
Defined.

(** ** A topic pair with no word pair in the vocabulary *)

Lemma WEPS_inner_loop_skips wv similarity word1 (l2 : list string) st :
  (forall b, b ∈ l2 -> contains wv word1 && contains wv b = false) ->
  foldl (WordEmbeddingsPairwiseSimilarity.word_step wv similarity word1) st l2
  = st.
Proof.
  revert st. induction l2 as [|b l2 IH]; intros st Hno; simpl; [done|].
  unfold WordEmbeddingsPairwiseSimilarity.word_step at 2.
  rewrite (Hno b) by (by left). apply IH. intros b' Hb'. apply Hno. by right.
Qed.

Lemma WEPS_word_loops_skip wv similarity topk l1 l2 :
  (forall a b, a ∈ slice_to topk l1 -> b ∈ slice_to topk l2 ->
               contains wv a && contains wv b = false) ->
  WordEmbeddingsPairwiseSimilarity.word_loops wv similarity topk l1 l2
  = (PyInt 0, 0).
Proof.
  unfold WordEmbeddingsPairwiseSimilarity.word_loops.
  generalize (slice_to topk l1) as s1. generalize (PyInt 0, 0) as st.
  intros st s1. revert st.
  induction s1 as [|a s1 IH]; intros st Hno; simpl; [done|].
  rewrite WEPS_inner_loop_skips by (intros b Hb; apply Hno; [by left|done]).
  apply IH. intros a' b Ha' Hb. apply Hno; [by right|done].
Qed.




(** ** Resolving a word-to-vector mapping *)

Lemma np_stack_same_shape (a : pyobj) (rest : list pyobj) :
  forallb (fun b => bool_decide (shape (asanyarray b) = shape (asanyarray a)))
          rest = true ->
  Forall (fun o => shape (asanyarray o) = shape (asanyarray a)) (a :: rest).
Proof.
  intros H. constructor; [done|].
  apply Forall_forall. intros o Ho.
  rewrite forallb_forall in H. apply list_elem_of_In in Ho.
  specialize (H o Ho). by apply bool_decide_eq_true in H.
Qed.

(** C7, as stated, fails: nothing looks at the element type, so a mapping
    of equal-length 1-dimensional arrays of strings resolves to a table. *)
Lemma C7_string_vectors_accepted :
  let dic := [("a", NdArray {| dtype := str_; shape := [2%nat];
                               data := [Str "x"; Str "y"] |});
              ("b", NdArray {| dtype := str_; shape := [2%nat];
                               data := [Str "u"; Str "v"] |})] in
  KeyedVectorsMixin.load_keyedvectors (fun _ => Raise KeyError)
    (KeyedVectorsMixin.ModelDict dic) None
  = Ok {| vector_size := 2;
          key_to_index := [("a", 0%nat); ("b", 1%nat)];
          vectors_dtype := str_;
          vectors := [[Str "x"; Str "y"]; [Str "u"; Str "v"]] |}.
Proof. reflexivity. Qed.

(** C7, amended. Resolving a mapping some value of which is not a
    1-dimensional vector, or whose vectors are not all of one length,
    fails: with the [AssertionError] of the checks on the first value, or
    with the [ValueError] [np.stack] raises on unequal shapes.  Whether the
    entries are numbers is not checked. *)
Theorem C7_malformed_mapping_rejected
    (api_load : string -> result KeyedVectors)
    (dic : list (string * pyobj)) (model_name : option string) :
  ~ vectors_of_one_length (dict_values dic) ->
  KeyedVectorsMixin.load_keyedvectors api_load
    (KeyedVectorsMixin.ModelDict dic) model_name = Raise AssertionError
  \/ KeyedVectorsMixin.load_keyedvectors api_load
       (KeyedVectorsMixin.ModelDict dic) model_name
     = Raise (ValueError "all input arrays must have the same shape").
Proof.
  intros Hbad. simpl.
  unfold KeyedVectorsMixin._convert_dict_to_keyedvectors.
  destruct (dict_values dic) as [|arr rest] eqn:Hv.
  { exfalso. apply Hbad. exists 0%nat. constructor. }
  destruct (isinstance_ndarray arr); simpl; [|by left].
  case_bool_decide as Hdim; simpl; [|by left].
  destruct (forallb _ rest) eqn:Hall; simpl; [|by right].
  exfalso. apply Hbad.
  apply np_stack_same_shape in Hall.
  destruct (shape (asanyarray arr)) as [|n [|m sh]];
    simpl in Hdim; try discriminate.
  by exists n.
Qed.

Lemma C7_malformed_mapping_rejected_witness :
  let dic := [("a", NdArray {| dtype := float64; shape := [2%nat];
                               data := [Float 1; Float 0] |});
              ("b", NdArray {| dtype := float64; shape := [3%nat];
                               data := [Float 0; Float 1; Float 0] |})]
  in
  KeyedVectorsMixin.load_keyedvectors (fun _ => Raise KeyError)
    (KeyedVectorsMixin.ModelDict dic) None = Raise AssertionError
  \/ KeyedVectorsMixin.load_keyedvectors (fun _ => Raise KeyError)
       (KeyedVectorsMixin.ModelDict dic) None
     = Raise (ValueError "all input arrays must have the same shape").
Proof.
  apply C7_malformed_mapping_rejected.
  intros [n Hn]. simpl in Hn.
  apply Forall_cons in Hn as [H1 Hn]. apply Forall_cons in Hn as [H2 _].
  simpl in H1, H2. congruence.
Defined.

(** Conversely, a non-empty mapping of equal-length vectors whose first
    value is an [np.ndarray] is accepted. *)
Lemma well_formed_mapping_accepted (dic : list (string * pyobj)) k a :
  head dic = Some (k, NdArray a) ->
  vectors_of_one_length (dict_values dic) ->
  exists kv, KeyedVectorsMixin._convert_dict_to_keyedvectors dic = Ok kv.
Proof.
  intros Hhd [n Hn]. destruct dic as [|[k' o] dic]; [done|].
  injection Hhd as -> ->.
  unfold KeyedVectorsMixin._convert_dict_to_keyedvectors. simpl in *.
  apply Forall_cons in Hn as [Ha Hn]. simpl in Ha. rewrite Ha. simpl.
  rewrite (proj2 (forallb_forall _ _)); [simpl; eauto|].
  intros o Ho. apply bool_decide_eq_true.
  rewrite Forall_forall in Hn. apply Hn. by apply list_elem_of_In.
Qed.

Lemma imap_keys {V} (g : nat -> V) (l : list string) :
  dict_keys (imap (fun idx k => (k, g idx)) l) = l.
Proof.
  revert g. induction l as [|k l IH]; intros g; simpl; [done|].
  f_equal. apply (IH (g ∘ S)).
Qed.

(** In the index built by enumerating distinct keys, a key finds its own
    position. *)
Lemma dict_get_imap {V} (g : nat -> V) (l : list string) (i : nat) k :
  NoDup l -> l !! i = Some k ->
  dict_get (imap (fun idx k => (k, g idx)) l) k = Ok (g i).
Proof.
  revert g i. induction l as [|k0 l IH]; intros g i Hnd Hi; [done|].
  apply NoDup_cons in Hnd as [Hk0 Hnd]. simpl.
  destruct i as [|i]; simpl in Hi.
  - injection Hi as ->. by rewrite decide_True.
  - rewrite decide_False.
    + apply (IH (g ∘ S) i Hnd Hi).
    + intros ->. apply Hk0. by eapply list_elem_of_lookup_2.
Qed.

Lemma promote_idemp (d : np_dtype) : promote d d = d.
Proof. by destruct d. Qed.

Lemma result_type_same (d : np_dtype) (ds : list np_dtype) :
  ds <> [] -> Forall (fun d' => d' = d) ds -> result_type ds = d.
Proof.
  destruct ds as [|d0 ds]; [done|]. intros _ Hall.
  apply Forall_cons in Hall as [-> Hall]. simpl.
  induction Hall as [|d' ds -> _ IH]; simpl; [done|].
  by rewrite promote_idemp.
Qed.

Lemma astype_has_dtype (d : np_dtype) (x : scalar) :
  has_dtype d x -> astype d x = x.
Proof. by destruct d, x. Qed.

(** C8, as stated, fails: the table is one array of one element type, so
    with a float64 and an int64 vector in the mapping the lookup of the
    second returns floats, not the array that was supplied. *)
Lemma C8_mixed_dtypes_converted :
  let a := {| dtype := float64; shape := [1%nat]; data := [Float 0.5] |} in
  let b := {| dtype := int64; shape := [1%nat]; data := [Int 1] |} in
  let kv := {| vector_size := 1;
               key_to_index := [("a", 0%nat); ("b", 1%nat)];
               vectors_dtype := float64;
               vectors := [[Float 0.5]; [Float 1]] |} in
  KeyedVectorsMixin.load_keyedvectors (fun _ => Raise KeyError)
    (KeyedVectorsMixin.ModelDict [("a", NdArray a); ("b", NdArray b)]) None
  = Ok kv
  /\ get_vector kv "b"
     = Ok {| dtype := float64; shape := [1%nat]; data := [Float 1] |}
  /\ get_vector kv "b" <> Ok b.
Proof. repeat split; try reflexivity. discriminate. Qed.

(** C8, amended. When a mapping with distinct keys resolves to a table,
    the table's vocabulary is the mapping's keys in their order, and
    membership in it is membership among the keys.  The table has one
    element type, the promotion of the values' element types, and looking
    up a key returns the entries of the array supplied for it cast to that
    type.  When all values are well-formed arrays of one element type, the
    lookup returns the supplied array itself: same element type, same
    shape, same entries. *)
Theorem C8_mapping_round_trip
    (api_load : string -> result KeyedVectors)
    (dic : list (string * pyobj)) (model_name : option string)
    (kv : KeyedVectors) :
  NoDup (dict_keys dic) ->
  KeyedVectorsMixin.load_keyedvectors api_load
    (KeyedVectorsMixin.ModelDict dic) model_name = Ok kv ->
  dict_keys (key_to_index kv) = dict_keys dic
  /\ (forall w, contains kv w = true <-> w ∈ dict_keys dic)
  /\ vectors_dtype kv
     = result_type (map (fun o => dtype (asanyarray o)) (dict_values dic))
  /\ (forall k v, (k, v) ∈ dic ->
        get_vector kv k
        = Ok {| dtype := vectors_dtype kv;
                shape := [length (data (asanyarray v))];
                data := map (astype (vectors_dtype kv))
                            (data (asanyarray v)) |})
  /\ (forall d,
        Forall (fun o => dtype (asanyarray o) = d
                         /\ ndarray_wf (asanyarray o)
                         /\ well_typed (asanyarray o)) (dict_values dic) ->
        forall k v, (k, v) ∈ dic -> get_vector kv k = Ok (asanyarray v)).
Proof.
  intros Hnd. simpl.
  unfold KeyedVectorsMixin._convert_dict_to_keyedvectors.
  destruct (dict_values dic) as [|arr rest] eqn:Hv; [discriminate|].
  destruct (isinstance_ndarray arr); cbn [negb]; [|discriminate].
  case_bool_decide as Hdim; cbn [negb]; [|discriminate].
  unfold np_stack. destruct (forallb _ rest) eqn:Hall; cbn [bind];
    [|discriminate].
  apply np_stack_same_shape in Hall.
  rewrite <- Hv in *. clear Hv. intros [= <-]. cbn [fst snd].
  assert (Hkeys : dict_keys (imap (fun idx k => (k, idx)) (dict_keys dic))
                  = dict_keys dic) by apply (imap_keys id).
  set (d := result_type (map (fun o => dtype (asanyarray o))
                             (dict_values dic))).
  assert (Hget : forall k v, (k, v) ∈ dic ->
            get_vector
              {| vector_size := hd 0%nat (shape (asanyarray arr));
                 key_to_index := imap (fun idx k => (k, idx)) (dict_keys dic);
                 vectors_dtype := d;
                 vectors := map (fun b => map (astype d) (data (asanyarray b)))
                                (dict_values dic) |} k
            = Ok {| dtype := d;
                    shape := [length (data (asanyarray v))];
                    data := map (astype d) (data (asanyarray v)) |}).
  { intros k v Hin. apply list_elem_of_lookup in Hin as [i Hi].
    unfold get_vector. cbn [key_to_index vectors vectors_dtype].
    pose proof (dict_get_imap id (dict_keys dic) i k Hnd) as Hg.
    unfold id in Hg. rewrite Hg.
    - cbn [bind]. unfold dict_values.
      rewrite list_lookup_fmap, list_lookup_fmap, Hi. simpl.
      by rewrite length_map.
    - unfold dict_keys. by rewrite list_lookup_fmap, Hi. }
  split; [done|]. split; [|split; [done|split; [done|]]].
  - intros w. unfold contains. cbn [key_to_index]. rewrite Hkeys.
    apply bool_decide_eq_true.
  - intros d0 Hsame k v Hin. rewrite (Hget k v Hin).
    assert (Hv : v ∈ dict_values dic).
    { unfold dict_values. apply list_elem_of_fmap. by exists (k, v). }
    rewrite Forall_forall in Hsame, Hall.
    destruct (Hsame v Hv) as (Hd & Hwf & Hty). specialize (Hall v Hv).
    assert (Hd0 : d = d0).
    { apply result_type_same.
      - destruct (dict_values dic); [by apply elem_of_nil in Hv | done].
      - apply Forall_fmap, Forall_forall. intros o Ho.
        by destruct (Hsame o Ho). }
    destruct (asanyarray v) as [dt sh da]. unfold ndarray_wf, well_typed in *.
    cbn [dtype shape data] in *. subst dt.
    destruct (shape (asanyarray arr)) as [|n [|m sh']]; simpl in Hdim;
      try discriminate. subst sh. simpl in Hwf.
    f_equal. rewrite Hd0. f_equal.
    + f_equal. lia.
    + rewrite <- (list_fmap_id da) at 2. apply Forall_fmap_ext_1.
      eapply Forall_impl; [exact Hty|]. intros x. apply astype_has_dtype.
Qed.

Lemma C8_mapping_round_trip_witness :
  dict_keys (key_to_index ex_wv) = dict_keys ex_dic
  /\ (forall w, contains ex_wv w = true <-> w ∈ dict_keys ex_dic)
  /\ vectors_dtype ex_wv
     = result_type (map (fun o => dtype (asanyarray o)) (dict_values ex_dic))
  /\ (forall k v, (k, v) ∈ ex_dic ->
        get_vector ex_wv k
        = Ok {| dtype := vectors_dtype ex_wv;
                shape := [length (data (asanyarray v))];
                data := map (astype (vectors_dtype ex_wv))
                            (data (asanyarray v)) |})
  /\ (forall d,
        Forall (fun o => dtype (asanyarray o) = d
                         /\ ndarray_wf (asanyarray o)
                         /\ well_typed (asanyarray o)) (dict_values ex_dic) ->
        forall k v, (k, v) ∈ ex_dic -> get_vector ex_wv k = Ok (asanyarray v)).
Proof.
  apply (C8_mapping_round_trip (fun _ => Raise KeyError) ex_dic None ex_wv).
  - unfold ex_dic. simpl. apply NoDup_cons. split; [|apply NoDup_singleton].
    intros Ha%list_elem_of_singleton. discriminate.
  - reflexivity.
Defined.

(** ** The weighted-sum scorer *)

(** Both centroids of a pair come from row [i]: the value added for the
    pair [(i, j)] is the cosine distance of row [i]'s centroid to itself,
    whatever [j] is. *)
Lemma WESS_pair_value_self_distance wv cosine id2word beta i j :
  WordEmbeddingsWeightedSumSimilarity.pair_value wv cosine id2word beta i j
  = let* row := WordEmbeddingsWeightedSumSimilarity.row_getitem beta i in
    let* c := WordEmbeddingsWeightedSumSimilarity.weighted_centroid
                wv id2word row in
    Ok (cosine c c).
Proof.
  unfold WordEmbeddingsWeightedSumSimilarity.pair_value.
  destruct (WordEmbeddingsWeightedSumSimilarity.row_getitem beta i) as [row|];
    simpl; [|done].
  by destruct (WordEmbeddingsWeightedSumSimilarity.weighted_centroid _ _ row).
Qed.

(** C2, on the code: for the two one-word topics of [ex_beta] the code adds
    the distance [0.0] of the first centroid to itself, where the centroids
    of rows 0 and 1 are orthogonal and their cosine distance is [1.0]. *)
Theorem C2_second_centroid_from_row_i :
  WordEmbeddingsWeightedSumSimilarity.pair_value
    ex_wv scipy_cosine ex_id2word ex_beta 0 1 = Ok (NpFloat 0)
  /\ WeightedCentroidSimilarity_spec.pair_value
       ex_wv scipy_cosine ex_id2word ex_beta 0 1 = Ok (NpFloat 1).
Proof. split; vm_compute; reflexivity. Qed.

(** The pair loop never assigns [count]. *)
Lemma WESS_count_unchanged wv cosine id2word beta pairs st st' :
  for_each (WordEmbeddingsWeightedSumSimilarity.body wv cosine id2word beta)
           pairs st = Ok st' ->
  st'.2 = st.2.
Proof.
  revert st. induction pairs as [|ij pairs IH]; intros st; simpl.
  - by intros [= ->].
  - unfold WordEmbeddingsWeightedSumSimilarity.body at 1.
    destruct (WordEmbeddingsWeightedSumSimilarity.pair_value
                wv cosine id2word beta ij.1 ij.2); simpl; [|discriminate].
    intros H. by rewrite (IH _ H).
Qed.

(** So the final division is always by the int [0]: [score] raises, or
    returns numpy's quotient of the accumulated value by zero. *)
Lemma WESS_score_divides_by_zero wv cosine id2word mo :
  WordEmbeddingsWeightedSumSimilarity.score wv cosine id2word mo
  = let* beta := getitem (topic_word_distribution mo) in
    let* st := WordEmbeddingsWeightedSumSimilarity.pair_loop
                 wv cosine id2word beta in
    py_div st.1 (PyInt 0).
Proof.
  unfold WordEmbeddingsWeightedSumSimilarity.score.
  destruct (getitem _) as [beta|]; simpl; [|done].
  destruct (WordEmbeddingsWeightedSumSimilarity.pair_loop _ _ _ beta)
    as [st|] eqn:Hl; simpl; [|done].
  apply WESS_count_unchanged in Hl. simpl in Hl. by rewrite Hl.
Qed.

(** C1, on the code: on the two rows of [ex_beta] the accumulated value is
    [0.0] and there is one pair, so the mean is [0.0]; the code divides by
    its [count], still [0], and returns [nan]. *)
Theorem C1_count_never_incremented :
  WordEmbeddingsWeightedSumSimilarity.score
    ex_wv scipy_cosine ex_id2word (with_distribution ex_beta)
  = Ok (NpFloat nan)
  /\ WeightedCentroidSimilarity_spec.mean_over_pairs
       ex_wv scipy_cosine ex_id2word (with_distribution ex_beta)
     = Ok (NpFloat 0).
Proof. split; vm_compute; reflexivity. Qed.

(** ** The Jaccard scorer *)

(** The example of the specification. *)
Example jaccard_ab_bc :
  PairwiseJaccardSimilarity.intersection 2 ["a"; "b"] ["b"; "c"] = 1
  /\ PairwiseJaccardSimilarity.union 2 ["a"; "b"] ["b"; "c"] = 3
  /\ PairwiseJaccardSimilarity.score 2 (with_topics [["a"; "b"]; ["b"; "c"]])
     = Ok (PyFloat (1 / 3)).
Proof. repeat split; vm_compute; reflexivity. Qed.

(** On slices without repeated words the code's pair score is the Jaccard
    index of the two sets. *)
Lemma jaccard_agrees_without_duplicates topk list1 list2 :
  NoDup (slice_to topk list1) -> NoDup (slice_to topk list2) ->
  PairwiseJaccardSimilarity.pair_score topk list1 list2
  = JaccardOverlap_spec.pair_score topk list1 list2.
Proof.
  intros H1 H2.
  unfold PairwiseJaccardSimilarity.pair_score, JaccardOverlap_spec.pair_score,
    PairwiseJaccardSimilarity.union, PairwiseJaccardSimilarity.intersection,
    JaccardOverlap_spec.top_k, len.
  by rewrite !size_list_to_set.
Qed.

(** C4, on the code: a word repeated inside a top-k slice is counted once in
    the intersection but every time in [union], which adds list lengths.
    For [["a","a"]] and [["a","b"]] the code returns 1/3; the sets [{a}] and
    [{a,b}] have Jaccard index 1/2. *)
Theorem C4_union_counts_duplicates :
  PairwiseJaccardSimilarity.pair_score 2 ["a"; "a"] ["a"; "b"]
    = Ok (PyFloat (1 / 3))
  /\ PairwiseJaccardSimilarity.score 2
       (with_topics [["a"; "a"]; ["a"; "b"]]) = Ok (PyFloat (1 / 3))
  /\ JaccardOverlap_spec.pair_score 2 ["a"; "a"] ["a"; "b"]
     = Ok (PyFloat (1 / 2)).
Proof. repeat split; vm_compute; reflexivity. Qed.

(** ** Identical topics *)


Lemma count_check_sound (fuel : nat) : forall k n : nat,
  count_check fuel k (float_count_ones k) = true ->
  (k < n <= k + fuel)%nat -> float_mean_of_ones n = 1%float.
Proof.
  induction fuel as [|fuel IH]; intros k n Hc Hn; [lia|].
  simpl in Hc. apply andb_prop in Hc as [Hhere Hrest].
  destruct (decide (n = S k)) as [->|Hne].
  - by apply Leibniz.eqb_spec in Hhere.
  - apply (IH (S k) n); [done | lia].
Qed.

(** Up to 5000 ones (100 topics, or 70 top words) the binary64 mean of
    ones is exactly [1.0]. *)
Lemma float_mean_of_ones_small (n : nat) :
  0 < Z.of_nat n <= 5000 -> float_mean_of_ones n = 1%float.
Proof.
  intros Hn. apply (count_check_sound (Z.to_nat 5000) 0 n); [|lia].
  vm_compute. reflexivity.
Qed.


Lemma dict_get_contains (wv : KeyedVectors) (word : string) :
  contains wv word = true ->
  exists idx, dict_get (key_to_index wv) word = Ok idx
              /\ (word, idx) ∈ key_to_index wv.
Proof.
  unfold contains, dict_keys. intros H. apply bool_decide_eq_true in H.
  induction (key_to_index wv) as [|[k i] d IH]; simpl in *.
  - by apply elem_of_nil in H.
  - case_decide as Hk.
    + subst k. exists i. split; [done | by left].
    + apply elem_of_cons in H as [H|H]; [congruence|].
      destruct (IH H) as (idx & Hg & Hin). exists idx. split; [done | by right].
Qed.

Lemma entries_float64_numbers (xs : list scalar) :
  Forall is_number xs ->
  exists v, entries_float64 xs = Ok v /\ length v = length xs.
Proof.
  induction 1 as [|x xs Hx _ (v & IH & Hlen)]; simpl; [by exists []|].
  rewrite IH. destruct x; try done; simpl; eexists; split; try done;
    simpl; by rewrite Hlen.
Qed.

(** In a well-formed table a vocabulary word has a vector of numbers, of
    the table's size. *)
Lemma get_vector_wf (wv : KeyedVectors) (word : string) :
  kv_wf wv -> contains wv word = true ->
  exists a v, get_vector wv word = Ok a
              /\ as_float64 a = Ok v /\ length v = vector_size wv.
Proof.
  intros [Hdt Hwf] Hin.
  destruct (dict_get_contains _ _ Hin) as (idx & Hg & Hidx).
  rewrite Forall_forall in Hwf.
  destruct (Hwf _ Hidx) as (row & Hrow & Hlen & Hnum). simpl in Hrow.
  destruct (entries_float64_numbers row Hnum) as (v & Hv & Hvlen).
  exists {| dtype := vectors_dtype wv; shape := [length row]; data := row |}, v.
  split; [|split; [|congruence]].
  - unfold get_vector. by rewrite Hg; simpl; rewrite Hrow.
  - unfold as_float64. cbn [dtype data]. by destruct (vectors_dtype wv).
Qed.

(** So the centroid scorer's word loop runs through. *)
Lemma WECS_word_loop_Ok (wv : KeyedVectors) (topk : Z) (t : list string) :
  kv_wf wv ->
  exists st, WordEmbeddingsCentroidSimilarity.word_loop wv topk t = Ok st.
Proof.
  intros Hwf. unfold WordEmbeddingsCentroidSimilarity.word_loop.
  assert (Hlen0 : length (np_zeros (vector_size wv)) = vector_size wv)
    by apply length_replicate.
  revert Hlen0. generalize (np_zeros (vector_size wv)) as c0.
  generalize 0 as n0. generalize (slice_to topk t) as ws.
  induction ws as [|w ws IH]; intros n0 c0 Hc0; simpl; [eauto|].
  unfold WordEmbeddingsCentroidSimilarity.word_step at 1.
  destruct (contains wv w) eqn:Hw; simpl; [|by apply IH].
  destruct (get_vector_wf wv w Hwf Hw) as (a & v & -> & Ha & Hv). simpl.
  unfold np_add_array, np_add. rewrite Ha. simpl.
  rewrite decide_True by congruence. simpl.
  apply IH. rewrite length_zip_with. lia.
Qed.



(** With scipy's formula, a centroid that is the zero vector has no cosine
    distance to itself: two opposite words give the centroid scorer
    [nan]. *)
Example centroid_identical_topics_zero_centroid :
  let wv := {| vector_size := 2;
               key_to_index := [("a", 0%nat); ("b", 1%nat)];
               vectors_dtype := float64;
               vectors := [[Float 1; Float 0]; [Float (-1); Float 0]] |} in
  WordEmbeddingsCentroidSimilarity.score wv scipy_cosine 2
    (with_topics [["a"; "b"]; ["a"; "b"]]) = Ok (NpFloat nan).
Proof. vm_compute. reflexivity. Qed.

(** Not even a word's similarity to itself is [1.0] in general: in
    binary64 the unit vector of [(1, 1)] has a squared length just below
    one. *)
Example pairwise_self_similarity_rounds :
  contains ex_wv_parallel "c" = true
  /\ gensim_similarity ex_wv_parallel "c" "c"
     = NpFloat 0x1.ffffffffffffep-1
  /\ WordEmbeddingsPairwiseSimilarity.score
       ex_wv_parallel (gensim_similarity ex_wv_parallel) 1
       (with_topics [["c"]; ["c"]])
     = Ok (NpFloat 0x1.ffffffffffffep-1).
Proof. repeat split; vm_compute; reflexivity. Qed.





(** * Further properties of the code *)

(** ** Resolving a mapping, continued *)

(** When a mapping resolves, all its values have the first value's shape,
    which is 1-dimensional. *)
Lemma convert_Ok_shapes (dic : list (string * pyobj)) (kv : KeyedVectors) :
  KeyedVectorsMixin._convert_dict_to_keyedvectors dic = Ok kv ->
  exists k a rest n,
    dic = (k, NdArray a) :: rest
    /\ Forall (fun o => shape (asanyarray o) = [n]) (dict_values dic)
    /\ kv = {| vector_size := n;
               key_to_index := imap (fun idx k => (k, idx)) (dict_keys dic);
               vectors_dtype :=
                 result_type (map (fun o => dtype (asanyarray o))
                                  (dict_values dic));
               vectors :=
                 map (fun o =>
                        map (astype (result_type
                                       (map (fun o => dtype (asanyarray o))
                                            (dict_values dic))))
                            (data (asanyarray o)))
                     (dict_values dic) |}.
Proof.
  unfold KeyedVectorsMixin._convert_dict_to_keyedvectors.
  destruct dic as [|[k o] rest]; [discriminate|].
  cbn [dict_values fmap list_fmap snd].
  destruct o as [a|a]; cbn [isinstance_ndarray negb asanyarray];
    [|discriminate].
  case_bool_decide as Hdim; cbn [negb]; [|discriminate].
  unfold np_stack.
  destruct (forallb _ _) eqn:Hall; cbn [bind]; [|discriminate].
  apply (np_stack_same_shape (NdArray a)) in Hall. cbn [asanyarray] in Hall.
  destruct (shape a) as [|n [|m sh]] eqn:Hsh; simpl in Hdim;
    try discriminate.
  intros [= <-]. by exists k, a, rest, n.
Qed.

(** X1. A mapping resolves to a table exactly when it is not empty, its
    first value is an [np.ndarray], and all its values are 1-dimensional
    vectors of one length; an empty mapping fails with [StopIteration], a
    first value that is not an [np.ndarray] with [AssertionError]. *)
Theorem convert_accepts_exactly (dic : list (string * pyobj)) :
  ((exists kv, KeyedVectorsMixin._convert_dict_to_keyedvectors dic = Ok kv)
   <-> (exists k a rest, dic = (k, NdArray a) :: rest)
       /\ vectors_of_one_length (dict_values dic))
  /\ (dic = [] ->
      KeyedVectorsMixin._convert_dict_to_keyedvectors dic
      = Raise StopIteration)
  /\ (forall k a rest, dic = (k, ArrayLike a) :: rest ->
      KeyedVectorsMixin._convert_dict_to_keyedvectors dic
      = Raise AssertionError).
Proof.
  split; [split|split].
  - intros [kv Hkv].
    destruct (convert_Ok_shapes dic kv Hkv) as (k & a & rest & n & -> & HF & _).
    split; [by exists k, a, rest | by exists n].
  - intros [(k & a & rest & ->) Hone].
    by apply (well_formed_mapping_accepted _ k a).
  - by intros ->.
  - by intros k a rest ->.
Qed.

(** The index built by enumerating keys holds each key with a position
    inside the list. *)
Lemma imap_index_bound (keys : list string) (k : string) (idx : nat) :
  (k, idx) ∈ imap (fun idx k => (k, idx)) keys -> (idx < length keys)%nat.
Proof.
  intros (i & y & [= -> ->] & Hi)%elem_of_lookup_imap.
  by eapply lookup_lt_Some.
Qed.

Lemma imap_index_values (keys : list string) :
  dict_values (imap (fun idx k => (k, idx)) keys) = seq 0 (length keys).
Proof.
  unfold dict_values. apply list_eq. intros i.
  rewrite list_lookup_fmap, list_lookup_imap.
  destruct (keys !! i) as [k|] eqn:Hk; simpl; symmetry.
  - apply lookup_seq. split; [done | by eapply lookup_lt_Some].
  - apply lookup_seq_ge. apply lookup_ge_None in Hk. lia.
Qed.

(** Numbers promote to a number type, and a cast to one keeps numbers. *)
Lemma promote_number (d1 d2 : np_dtype) :
  d1 <> str_ -> d2 <> str_ -> promote d1 d2 <> str_.
Proof. by destruct d1, d2. Qed.

Lemma result_type_number (ds : list np_dtype) :
  Forall (fun d => d <> str_) ds -> result_type ds <> str_.
Proof.
  destruct ds as [|d ds]; [done|]. intros [Hd Hds]%Forall_cons. simpl.
  revert d Hd. induction Hds as [|d' ds Hd' _ IH]; intros d Hd; simpl;
    [done|]. apply IH. by apply promote_number.
Qed.

Lemma astype_number (d : np_dtype) (x : scalar) :
  d <> str_ -> is_number x -> is_number (astype d x).
Proof. by destruct d, x. Qed.

(** A table resolved from well-formed arrays of numbers satisfies the
    table invariant. *)
Lemma convert_kv_wf (dic : list (string * pyobj)) (kv : KeyedVectors) :
  Forall (fun o => ndarray_wf (asanyarray o)) (dict_values dic) ->
  Forall (fun o => numeric (asanyarray o)) (dict_values dic) ->
  KeyedVectorsMixin._convert_dict_to_keyedvectors dic = Ok kv ->
  kv_wf kv.
Proof.
  intros Hwf Hnum Hkv.
  destruct (convert_Ok_shapes dic kv Hkv) as (k & a & rest & n & _ & HF & ->).
  unfold kv_wf. cbn [key_to_index vectors vector_size vectors_dtype].
  assert (Hdt : result_type (map (fun o => dtype (asanyarray o))
                                 (dict_values dic)) <> str_).
  { apply result_type_number, Forall_fmap.
    eapply Forall_impl; [exact Hnum|]. by intros o [? _]. }
  split; [done|].
  apply Forall_forall. intros [w idx] Hin. cbn [snd].
  apply imap_index_bound in Hin. unfold dict_keys in Hin.
  rewrite length_fmap in Hin.
  destruct (lookup_lt_is_Some_2 (dict_values dic) idx) as [o Ho];
    [unfold dict_values; by rewrite length_fmap|].
  eexists. split; [by rewrite list_lookup_fmap, Ho|].
  rewrite Forall_forall in Hwf, HF, Hnum.
  assert (Hin' : o ∈ dict_values dic) by (by eapply list_elem_of_lookup_2).
  specialize (Hwf o Hin'). specialize (HF o Hin').
  destruct (Hnum o Hin') as [_ Hnums]. split.
  - rewrite length_map. unfold ndarray_wf in Hwf. rewrite Hwf, HF.
    simpl. lia.
  - apply Forall_fmap. eapply Forall_impl; [exact Hnums|].
    intros x Hx. by apply astype_number.
Qed.

(** X2. The table resolved from a mapping of well-formed arrays has one
    row per key, the keys indexed 0, 1, ... in their order, and every row of
    [vector_size] entries; when the arrays hold numbers it satisfies the
    table invariant the scorers rely on. *)
Theorem convert_table_invariant
    (dic : list (string * pyobj)) (kv : KeyedVectors) :
  Forall (fun o => ndarray_wf (asanyarray o)) (dict_values dic) ->
  KeyedVectorsMixin._convert_dict_to_keyedvectors dic = Ok kv ->
  (Forall (fun o => numeric (asanyarray o)) (dict_values dic) -> kv_wf kv)
  /\ length (vectors kv) = length dic
  /\ dict_values (key_to_index kv) = seq 0 (length dic)
  /\ Forall (fun row => length row = vector_size kv) (vectors kv).
Proof.
  intros Hwf Hkv. split; [intros Hnum; by eapply convert_kv_wf|].
  destruct (convert_Ok_shapes dic kv Hkv) as (k & a & rest & n & _ & HF & ->).
  cbn [key_to_index vectors vector_size].
  split; [|split].
  - unfold dict_values. by rewrite length_map, !length_fmap.
  - rewrite imap_index_values. unfold dict_keys. by rewrite length_fmap.
  - apply Forall_fmap. rewrite Forall_forall in Hwf, HF.
    apply Forall_forall. intros o Ho. simpl. rewrite length_map.
    specialize (Hwf o Ho). specialize (HF o Ho).
    unfold ndarray_wf in Hwf. rewrite Hwf, HF. simpl. lia.
Qed.

Lemma convert_table_invariant_witness :
  kv_wf ex_wv
  /\ length (vectors ex_wv) = length ex_dic
  /\ dict_values (key_to_index ex_wv) = seq 0 (length ex_dic)
  /\ Forall (fun row => length row = vector_size ex_wv) (vectors ex_wv).
Proof.
  destruct (convert_table_invariant ex_dic ex_wv) as (Hwf & Hrest).
  - repeat constructor.
  - reflexivity.
  - split; [|exact Hrest]. apply Hwf.
    repeat (apply Forall_cons_2;
            [split; [discriminate | check_numbers]|]).
    apply Forall_nil_2.
Defined.

(** X3. The catalog is consulted only when no model is given: with a
    table or a mapping (or anything else) as [model], the result depends
    neither on the catalog nor on [model_name]; a table is handed back
    unchanged. *)
Theorem load_consults_catalog_only_for_None
    (api_load1 api_load2 : string -> result KeyedVectors)
    (model : KeyedVectorsMixin.model_arg) (name1 name2 : option string) :
  model <> KeyedVectorsMixin.ModelNone ->
  KeyedVectorsMixin.load_keyedvectors api_load1 model name1
  = KeyedVectorsMixin.load_keyedvectors api_load2 model name2
  /\ (forall kv, model = KeyedVectorsMixin.ModelKeyedVectors kv ->
        KeyedVectorsMixin.load_keyedvectors api_load1 model name1 = Ok kv).
Proof.
  intros Hmodel. destruct model; try done.
  split; [done|]. by intros kv' [= ->].
Qed.

Lemma load_consults_catalog_only_for_None_witness :
  KeyedVectorsMixin.load_keyedvectors (fun _ => Raise KeyError)
    (KeyedVectorsMixin.ModelKeyedVectors ex_wv) None
  = KeyedVectorsMixin.load_keyedvectors (fun _ => Ok ex_wv)
      (KeyedVectorsMixin.ModelKeyedVectors ex_wv) (Some "glove")
  /\ (forall kv, KeyedVectorsMixin.ModelKeyedVectors ex_wv
                 = KeyedVectorsMixin.ModelKeyedVectors kv ->
        KeyedVectorsMixin.load_keyedvectors (fun _ => Raise KeyError)
          (KeyedVectorsMixin.ModelKeyedVectors ex_wv) None = Ok kv).
Proof.
  apply (load_consults_catalog_only_for_None
           (fun _ => Raise KeyError) (fun _ => Ok ex_wv)
           (KeyedVectorsMixin.ModelKeyedVectors ex_wv) None (Some "glove")).
  discriminate.
Defined.

(** ** More on loops and pairs *)

Lemma for_each_ext {A S} (body1 body2 : S -> A -> result S) xs (s : S) :
  (forall s' x, x ∈ xs -> body1 s' x = body2 s' x) ->
  for_each body1 xs s = for_each body2 xs s.
Proof.
  revert s. induction xs as [|x xs IH]; intros s Hext; simpl; [done|].
  rewrite Hext by (by left). destruct (body2 s x); simpl; [|done].
  apply IH. intros s' y Hy. apply Hext. by right.
Qed.

(** The pairs are pairs of positions [i < j] of the list, and only
    those. *)
Lemma combinations2_lookup {A} (l : list A) (x y : A) :
  (x, y) ∈ combinations2 l
  <-> exists i j : nat, (i < j)%nat /\ l !! i = Some x /\ l !! j = Some y.
Proof.
  induction l as [|a l IH]; simpl.
  - split; [by intros ?%elem_of_nil | by intros (i & j & _ & ? & _)].
  - rewrite elem_of_app, list_elem_of_fmap, IH. split.
    + intros [(b & [= -> ->] & Hb) | (i & j & Hij & Hi & Hj)].
      * apply list_elem_of_lookup in Hb as [j Hj].
        exists 0%nat, (S j). split; [lia|done].
      * exists (S i), (S j). split; [lia|done].
    + intros (i & j & Hij & Hi & Hj).
      destruct j as [|j]; [lia|]. simpl in Hj.
      destruct i as [|i]; simpl in Hi.
      * injection Hi as ->. left. exists y. split; [done|].
        by eapply list_elem_of_lookup_2.
      * right. exists i, j. split; [lia|done].
Qed.

Lemma combinations2_elem_of {A} (l : list A) (x y : A) :
  (x, y) ∈ combinations2 l -> x ∈ l /\ y ∈ l.
Proof.
  intros (i & j & _ & Hi & Hj)%combinations2_lookup.
  split; by eapply list_elem_of_lookup_2.
Qed.

Lemma combinations2_nonempty {A} (l : list A) :
  (2 <= length l)%nat -> (0 < length (combinations2 l))%nat.
Proof. destruct l as [|x [|y l]]; simpl; lia. Qed.

(** A slice bound at or beyond the length takes the whole list. *)
Lemma slice_to_all {A} (k : Z) (l : list A) : len l <= k -> slice_to k l = l.
Proof.
  unfold slice_to, len. intros Hk.
  destruct (Z.ltb_spec k 0); [lia|]. apply take_ge. lia.
Qed.

Lemma slice_to_length_le {A} (k : Z) (l : list A) :
  (length (slice_to k l) <= length l)%nat.
Proof. unfold slice_to. destruct (k <? 0); rewrite length_take; lia. Qed.

(** ** The Jaccard scorer, continued *)

Lemma size_list_to_set_le (l : list string) :
  (size (list_to_set l : gset string) <= length l)%nat.
Proof.
  induction l as [|x l IH].
  { by rewrite list_to_set_nil, size_empty. }
  rewrite list_to_set_cons, size_union_alt, size_singleton. simpl length.
  pose proof (subseteq_size (list_to_set l ∖ {[x]}) (list_to_set l : gset string)
                (subseteq_difference_l _ _ _ (reflexivity _))).
  lia.
Qed.

Lemma PJS_intersection_bounds (topk : Z) (list1 list2 : list string) :
  0 <= PairwiseJaccardSimilarity.intersection topk list1 list2
       <= len (slice_to topk list1)
  /\ PairwiseJaccardSimilarity.intersection topk list1 list2
     <= len (slice_to topk list2).
Proof.
  unfold PairwiseJaccardSimilarity.intersection, len.
  set (A := list_to_set (slice_to topk list1) : gset string).
  set (B := list_to_set (slice_to topk list2) : gset string).
  pose proof (subseteq_size (A ∩ B) A (intersection_subseteq_l A B)) as HA.
  pose proof (subseteq_size (A ∩ B) B (intersection_subseteq_r A B)) as HB.
  pose proof (size_list_to_set_le (slice_to topk list1)) as H1.
  pose proof (size_list_to_set_le (slice_to topk list2)) as H2.
  fold A in H1. fold B in H2. lia.
Qed.

(** The pair score fails exactly when [union] is [0], that is when both
    slices are empty. *)
Lemma PJS_pair_score_cases (topk : Z) (list1 list2 : list string) :
  (slice_to topk list1 = [] /\ slice_to topk list2 = []
   /\ PairwiseJaccardSimilarity.pair_score topk list1 list2
      = Raise ZeroDivisionError)
  \/ ((slice_to topk list1 <> [] \/ slice_to topk list2 <> [])
      /\ exists f, PairwiseJaccardSimilarity.pair_score topk list1 list2
                   = Ok (PyFloat f)).
Proof.
  pose proof (PJS_intersection_bounds topk list1 list2) as [[H0 H1] H2].
  unfold PairwiseJaccardSimilarity.pair_score,
    PairwiseJaccardSimilarity.union, py_div.
  destruct (Z.eqb_spec
              (len (slice_to topk list1) + len (slice_to topk list2)
               - PairwiseJaccardSimilarity.intersection topk list1 list2) 0)
    as [Hz|Hnz].
  - left. unfold len in *.
    destruct (slice_to topk list1), (slice_to topk list2); simpl in *;
      try lia. done.
  - right. split; [|eauto].
    destruct (slice_to topk list1); [|by left].
    destruct (slice_to topk list2); [|by right].
    exfalso. apply Hnz. unfold len in *. simpl in *. lia.
Qed.

(** X4. In the Jaccard pair score the intersection is between [0] and the
    shorter slice, so it never exceeds [union]; the division fails, with
    [ZeroDivisionError], exactly when both top-k slices are empty, and
    otherwise yields a Python float. *)
Theorem jaccard_pair_score_defined (topk : Z) (list1 list2 : list string) :
  0 <= PairwiseJaccardSimilarity.intersection topk list1 list2
       <= PairwiseJaccardSimilarity.union topk list1 list2
  /\ (PairwiseJaccardSimilarity.pair_score topk list1 list2
      = Raise ZeroDivisionError
      <-> slice_to topk list1 = [] /\ slice_to topk list2 = [])
  /\ ((exists f, PairwiseJaccardSimilarity.pair_score topk list1 list2
                 = Ok (PyFloat f))
      <-> slice_to topk list1 <> [] \/ slice_to topk list2 <> []).
Proof.
  pose proof (PJS_intersection_bounds topk list1 list2) as [[H0 H1] H2].
  split; [unfold PairwiseJaccardSimilarity.union; lia|].
  destruct (PJS_pair_score_cases topk list1 list2)
    as [(E1 & E2 & ->) | (Hne & f & ->)].
  - split; split; try done.
    + by intros [f ?].
    + intros [?|?]; congruence.
  - split; split; try done; [|by eauto].
    intros [E1 E2]. destruct Hne; congruence.
Qed.

(** X5. The Jaccard pair score does not depend on the order of the two
    topics. *)
Theorem jaccard_pair_score_symmetric (topk : Z) (list1 list2 : list string) :
  PairwiseJaccardSimilarity.pair_score topk list1 list2
  = PairwiseJaccardSimilarity.pair_score topk list2 list1.
Proof.
  unfold PairwiseJaccardSimilarity.pair_score,
    PairwiseJaccardSimilarity.union, PairwiseJaccardSimilarity.intersection.
  rewrite (comm_L (∩) (list_to_set (slice_to topk list1))).
  by rewrite (Z.add_comm (len (slice_to topk list1))).
Qed.

(** X6. The Jaccard scorer has no top-k guard: once [topk] reaches the
    length of every topic, the score is that of the whole word lists,
    whatever [topk] is. *)
Theorem jaccard_topk_saturates
    (topk1 topk2 : Z) (mo : model_output) (ts : list (list string)) :
  topics mo = Some ts ->
  Forall (fun t => len t <= topk1 /\ len t <= topk2) ts ->
  PairwiseJaccardSimilarity.score topk1 mo
  = PairwiseJaccardSimilarity.score topk2 mo.
Proof.
  intros Hts Hlen. unfold PairwiseJaccardSimilarity.score.
  read_topics Hts. rewrite Forall_forall in Hlen.
  rewrite (for_each_ext (PairwiseJaccardSimilarity.body topk1)
             (PairwiseJaccardSimilarity.body topk2)); [done|].
  intros [sim count] [l1 l2] [H1 H2]%combinations2_elem_of.
  destruct (Hlen l1 H1), (Hlen l2 H2).
  unfold PairwiseJaccardSimilarity.body, PairwiseJaccardSimilarity.pair_score,
    PairwiseJaccardSimilarity.union, PairwiseJaccardSimilarity.intersection.
  cbn [fst snd]. by rewrite !slice_to_all.
Qed.

Lemma jaccard_topk_saturates_witness :
  PairwiseJaccardSimilarity.score 2 (with_topics [["a"; "b"]; ["b"]])
  = PairwiseJaccardSimilarity.score 10 (with_topics [["a"; "b"]; ["b"]]).
Proof.
  apply (jaccard_topk_saturates 2 10 _ [["a"; "b"]; ["b"]]).
  - reflexivity.
  - repeat constructor; vm_compute; discriminate.
Defined.

(** The Jaccard pair loop over pairs none of which has two empty slices:
    it counts the pairs and accumulates a Python float. *)
Lemma PJS_loop_runs (topk : Z) (pairs : list (list string * list string))
    (sim : pyval) (count : Z) :
  Forall (fun p => slice_to topk p.1 <> [] \/ slice_to topk p.2 <> []) pairs ->
  (sim = PyInt 0 \/ exists f, sim = PyFloat f) ->
  exists sim',
    for_each (PairwiseJaccardSimilarity.body topk) pairs (sim, count)
    = Ok (sim', count + len pairs)
    /\ (pairs = [] /\ sim' = sim \/ exists f, sim' = PyFloat f).
Proof.
  intros Hpairs. revert sim count.
  induction Hpairs as [|p pairs Hp _ IH]; intros sim count Hsim; simpl.
  - exists sim. rewrite Z.add_0_r. split; [done | by left].
  - destruct (PJS_pair_score_cases topk p.1 p.2)
      as [(E1 & E2 & _) | (_ & q & Hq)]; [destruct Hp; congruence|].
    rewrite Hq. cbn [bind].
    destruct (IH (py_add sim (PyFloat q)) (count + 1)) as (sim' & -> & Hs).
    { right. destruct Hsim as [->|[f ->]]; simpl; eauto. }
    exists sim'. split; [f_equal; f_equal; unfold len; simpl length; lia|].
    right. destruct Hs as [[_ ->]|Hf]; [|done].
    destruct Hsim as [->|[f ->]]; simpl; eauto.
Qed.

(** X7. With at least two topics, none with an empty top-k slice, the
    Jaccard scorer returns a Python float: the sum [sim] its pair loop
    accumulates, divided in binary64 by the number of pairs the loop
    counts, which is [T(T-1)/2]. *)
Theorem jaccard_score_returns
    (topk : Z) (mo : model_output) (ts : list (list string)) :
  topics mo = Some ts ->
  (2 <= length ts)%nat ->
  Forall (fun t => slice_to topk t <> []) ts ->
  exists sim,
    for_each (PairwiseJaccardSimilarity.body topk) (combinations2 ts)
      (PyInt 0, 0) = Ok (PyFloat sim, len (combinations2 ts))
    /\ 2 * len (combinations2 ts) = len ts * (len ts - 1)
    /\ PairwiseJaccardSimilarity.score topk mo
       = Ok (PyFloat (sim / float_of_Z (len (combinations2 ts)))).
Proof.
  intros Hts Hlen Hne. rewrite Forall_forall in Hne.
  destruct (PJS_loop_runs topk (combinations2 ts) (PyInt 0) 0)
    as (sim' & Hloop & Hsim); [|by left|].
  { apply Forall_forall. intros [l1 l2] [H1 _]%combinations2_elem_of.
    left. by apply Hne. }
  pose proof (combinations2_nonempty ts Hlen) as Hpos.
  destruct Hsim as [[E _]|[sim ->]]; [rewrite E in Hpos; simpl in Hpos; lia|].
  rewrite Z.add_0_l in Hloop.
  exists sim. split; [done|split].
  - pose proof (combinations2_length ts). unfold len. nia.
  - unfold PairwiseJaccardSimilarity.score. read_topics Hts.
    rewrite Hloop. cbn [bind fst snd py_div].
    destruct (Z.eqb_spec (len (combinations2 ts)) 0); [unfold len in *; lia|].
    done.
Qed.

Lemma jaccard_score_returns_witness :
  exists sim,
    for_each (PairwiseJaccardSimilarity.body 2)
      (combinations2 [["a"; "b"]; ["b"; "c"]; ["c"]])
      (PyInt 0, 0)
    = Ok (PyFloat sim, len (combinations2 [["a"; "b"]; ["b"; "c"]; ["c"]]))
    /\ 2 * len (combinations2 [["a"; "b"]; ["b"; "c"]; ["c"]])
       = len [["a"; "b"]; ["b"; "c"]; ["c"]]
         * (len [["a"; "b"]; ["b"; "c"]; ["c"]] - 1)
    /\ PairwiseJaccardSimilarity.score 2
         (with_topics [["a"; "b"]; ["b"; "c"]; ["c"]])
       = Ok (PyFloat
               (sim / float_of_Z
                        (len (combinations2
                                [["a"; "b"]; ["b"; "c"]; ["c"]])))).
Proof.
  apply (jaccard_score_returns 2 _ [["a"; "b"]; ["b"; "c"]; ["c"]]).
  - reflexivity.
  - simpl. lia.
  - repeat constructor; discriminate.
Defined.

(** ** The embedding scorers, continued *)

(** A non-zero Python int divides every number. *)
Lemma py_div_nonzero (a : pyval) (z : Z) :
  z <> 0 -> exists q, py_div a (PyInt z) = Ok q.
Proof.
  intros Hz. destruct a; simpl; try (destruct (Z.eqb_spec z 0); [lia|]); eauto.
Qed.

(** A loop whose every turn succeeds and adds one to the counter. *)
Lemma for_each_counts {A V} (body : V * Z -> A -> result (V * Z))
    (xs : list A) (v : V) (count : Z) :
  (forall st x, x ∈ xs -> exists v', body st x = Ok (v', st.2 + 1)) ->
  exists v', for_each body xs (v, count) = Ok (v', count + len xs).
Proof.
  revert v count. induction xs as [|x xs IH]; intros v count Hb; simpl.
  - exists v. by rewrite Z.add_0_r.
  - destruct (Hb (v, count) x) as [v1 ->]; [by left|]. cbn [bind snd].
    destruct (IH v1 (count + 1)) as [v' ->].
    { intros st y Hy. apply Hb. by right. }
    exists v'. do 2 f_equal. unfold len. simpl length. lia.
Qed.

Lemma vocabulary_words_nil (wv : KeyedVectors) (topk : Z) (t : list string) :
  vocabulary_words wv topk t = [] ->
  forall w, w ∈ slice_to topk t -> contains wv w = false.
Proof.
  unfold vocabulary_words. intros Hnil w Hw.
  destruct (contains wv w) eqn:Hc; [|done].
  assert (w ∈ filter (fun w => contains wv w = true) (slice_to topk t))
    as Hin by (by apply list_elem_of_filter).
  rewrite Hnil in Hin. by apply elem_of_nil in Hin.
Qed.

Lemma WEPS_inner_count wv similarity word1 (s2 : list string) st :
  (foldl (WordEmbeddingsPairwiseSimilarity.word_step wv similarity word1)
         st s2).2
  = st.2 + (if contains wv word1
            then len (filter (fun w => contains wv w = true) s2) else 0).
Proof.
  revert st. induction s2 as [|b s2 IH]; intros st; simpl.
  - destruct (contains wv word1); unfold len; simpl; lia.
  - rewrite IH, filter_cons.
    unfold WordEmbeddingsPairwiseSimilarity.word_step at 1.
    destruct (contains wv word1); cbn [andb fst snd]; [|lia].
    destruct (contains wv b); cbn [fst snd]; case_decide; try congruence;
      unfold len; simpl length; lia.
Qed.

(** The word counter of a topic pair is the number of pairs of vocabulary
    words of the two slices. *)
Lemma WEPS_word_loops_count wv similarity topk (l1 l2 : list string) :
  (WordEmbeddingsPairwiseSimilarity.word_loops wv similarity topk l1 l2).2
  = len (vocabulary_words wv topk l1) * len (vocabulary_words wv topk l2).
Proof.
  unfold WordEmbeddingsPairwiseSimilarity.word_loops, vocabulary_words.
  generalize (slice_to topk l1) as s1. generalize (slice_to topk l2) as s2.
  intros s2 s1.
  assert (H : forall st,
    (foldl (fun st word1 =>
              foldl (WordEmbeddingsPairwiseSimilarity.word_step
                       wv similarity word1) st s2) st s1).2
    = st.2 + len (filter (fun w => contains wv w = true) s1)
             * len (filter (fun w => contains wv w = true) s2)).
  { induction s1 as [|a s1 IH]; intros st; simpl.
    - unfold len. simpl. lia.
    - rewrite IH, WEPS_inner_count, (filter_cons _ a).
      destruct (contains wv a); case_decide; try congruence;
        unfold len; simpl length; lia. }
  rewrite H. simpl. lia.
Qed.

Lemma WEPS_pair_sim_cases wv similarity topk (l1 l2 : list string) :
  ((vocabulary_words wv topk l1 = [] \/ vocabulary_words wv topk l2 = [])
   /\ WordEmbeddingsPairwiseSimilarity.pair_sim wv similarity topk l1 l2
      = Raise ZeroDivisionError)
  \/ (vocabulary_words wv topk l1 <> [] /\ vocabulary_words wv topk l2 <> []
      /\ exists v, WordEmbeddingsPairwiseSimilarity.pair_sim
                     wv similarity topk l1 l2 = Ok v).
Proof.
  destruct (vocabulary_words wv topk l1) as [|a v1] eqn:E1;
    [|destruct (vocabulary_words wv topk l2) as [|b v2] eqn:E2].
  - left. split; [by left|].
    unfold WordEmbeddingsPairwiseSimilarity.pair_sim.
    rewrite WEPS_word_loops_skip; [done|].
    intros x y Hx _. by rewrite (vocabulary_words_nil _ _ _ E1 x Hx).
  - left. split; [by right|].
    unfold WordEmbeddingsPairwiseSimilarity.pair_sim.
    rewrite WEPS_word_loops_skip; [done|].
    intros x y _ Hy. rewrite (vocabulary_words_nil _ _ _ E2 y Hy).
    apply andb_false_r.
  - right. split; [done|split; [done|]].
    unfold WordEmbeddingsPairwiseSimilarity.pair_sim.
    apply py_div_nonzero. rewrite WEPS_word_loops_count, E1, E2.
    unfold len. simpl length. lia.
Qed.

(** X8. In the pairwise scorer the word counter of a topic pair is the
    number of vocabulary words of the first slice times that of the second
    (words outside the vocabulary are skipped), and the pair's mean fails,
    with [ZeroDivisionError], exactly when one of the two slices has no
    vocabulary word. *)
Theorem pairwise_pair_sim_defined
    (wv : KeyedVectors) (similarity : string -> string -> pyval)
    (topk : Z) (l1 l2 : list string) :
  (WordEmbeddingsPairwiseSimilarity.word_loops wv similarity topk l1 l2).2
  = len (vocabulary_words wv topk l1) * len (vocabulary_words wv topk l2)
  /\ (WordEmbeddingsPairwiseSimilarity.pair_sim wv similarity topk l1 l2
      = Raise ZeroDivisionError
      <-> vocabulary_words wv topk l1 = []
          \/ vocabulary_words wv topk l2 = [])
  /\ ((exists v, WordEmbeddingsPairwiseSimilarity.pair_sim
                   wv similarity topk l1 l2 = Ok v)
      <-> vocabulary_words wv topk l1 <> []
          /\ vocabulary_words wv topk l2 <> []).
Proof.
  split; [apply WEPS_word_loops_count|].
  destruct (WEPS_pair_sim_cases wv similarity topk l1 l2)
    as [(Hnil & ->) | (H1 & H2 & v & ->)].
  - split; split; try done.
    + by intros [v ?].
    + intros [? ?]. destruct Hnil; congruence.
  - split; split; try done; [|by eauto].
    intros [?|?]; congruence.
Qed.



(** On a well-formed table nothing in the centroid scorer's pair loop can
    raise. *)
Lemma WECS_score_Ok
    (wv : KeyedVectors) (cosine : list float -> list float -> pyval)
    (topk : Z) (mo : model_output) (t0 t1 : list string)
    (rest : list (list string)) :
  kv_wf wv ->
  topics mo = Some (t0 :: t1 :: rest) ->
  topk <= len t0 ->
  exists v, WordEmbeddingsCentroidSimilarity.score wv cosine topk mo = Ok v.
Proof.
  intros Hwf Hts Hk.
  unfold WordEmbeddingsCentroidSimilarity.score. read_topics Hts.
  destruct (Z.gtb_spec topk (len t0)); [lia|].
  destruct (for_each_counts
              (WordEmbeddingsCentroidSimilarity.body wv cosine topk)
              (combinations2 (t0 :: t1 :: rest)) (PyInt 0) 0) as [v' ->].
  { intros st [l1 l2] _.
    unfold WordEmbeddingsCentroidSimilarity.body. cbn [fst snd].
    destruct (WECS_word_loop_Ok wv topk l1 Hwf) as [st1 ->].
    destruct (WECS_word_loop_Ok wv topk l2 Hwf) as [st2 ->].
    cbn [bind]. eauto. }
  cbn [bind fst snd]. apply py_div_nonzero.
  pose proof (combinations2_nonempty (t0 :: t1 :: rest)) as Hpos.
  unfold len. simpl length in *. lia.
Qed.

(** X10. On a well-formed table the centroid scorer returns a value for
    every two or more topics that pass the guard, also when a topic has no
    vocabulary word at all: its word loops skip unknown words and its
    divisions are numpy's. *)
Theorem centroid_score_returns
    (wv : KeyedVectors) (cosine : list float -> list float -> pyval)
    (topk : Z) (mo : model_output) (t0 t1 : list string)
    (rest : list (list string)) :
  kv_wf wv ->
  topics mo = Some (t0 :: t1 :: rest) ->
  topk <= len t0 ->
  exists v, WordEmbeddingsCentroidSimilarity.score wv cosine topk mo = Ok v.
Proof. apply WECS_score_Ok. Qed.

Lemma centroid_score_returns_witness :
  exists v, WordEmbeddingsCentroidSimilarity.score ex_wv scipy_cosine 2
              (with_topics [["a"; "x"]; ["y"; "z"]; ["b"; "a"]]) = Ok v.
Proof.
  apply (centroid_score_returns ex_wv scipy_cosine 2 _
           ["a"; "x"] ["y"; "z"] [["b"; "a"]]).
  - check_kv_wf.
  - reflexivity.
  - vm_compute. discriminate.
Defined.

(** X11. A topic none of whose top-k words is in the vocabulary gets no
    exception in the centroid scorer: its word loop leaves the zero vector
    and the count [0], and [centroid / count] is the vector of [nan]s that
    goes to [cosine]. *)
Theorem centroid_of_unknown_words
    (wv : KeyedVectors) (topk : Z) (t : list string) :
  vocabulary_words wv topk t = [] ->
  WordEmbeddingsCentroidSimilarity.word_loop wv topk t
  = Ok (np_zeros (vector_size wv), 0)
  /\ topic_centroid wv topk t = Ok (replicate (vector_size wv) nan).
Proof.
  intros Hnil.
  assert (Hloop : WordEmbeddingsCentroidSimilarity.word_loop wv topk t
                  = Ok (np_zeros (vector_size wv), 0)).
  { unfold WordEmbeddingsCentroidSimilarity.word_loop.
    pose proof (vocabulary_words_nil wv topk t Hnil) as Hout.
    generalize (np_zeros (vector_size wv), 0) as st.
    induction (slice_to topk t) as [|w ws IH]; intros st; simpl; [done|].
    unfold WordEmbeddingsCentroidSimilarity.word_step at 1.
    rewrite (Hout w) by (by left). cbn [bind]. apply IH.
    intros w' Hw'. apply Hout. by right. }
  split; [done|]. unfold topic_centroid. rewrite Hloop. cbn [bind fst snd].
  unfold np_div, np_zeros. by rewrite fmap_replicate.
Qed.

Lemma centroid_of_unknown_words_witness :
  WordEmbeddingsCentroidSimilarity.word_loop ex_wv 2 ["x"; "y"; "a"]
  = Ok (np_zeros (vector_size ex_wv), 0)
  /\ topic_centroid ex_wv 2 ["x"; "y"; "a"]
     = Ok (replicate (vector_size ex_wv) nan).
Proof.
  apply (centroid_of_unknown_words ex_wv 2 ["x"; "y"; "a"]). reflexivity.
Defined.

(** X12. What the three pairwise scorers can raise once [topics] is
    there.  The Jaccard scorer: only [ZeroDivisionError].  The pairwise and
    the centroid scorer, on a well-formed table (every vocabulary word with
    a row of [vector_size] numbers, so that the library calls on vocabulary
    words and on centroids are defined): [IndexError] (no topic), the
    insufficient-words exception, or [ZeroDivisionError]; never
    [KeyError], since every lookup is behind the membership test. *)
Theorem pairwise_scorers_exceptions
    (wv : KeyedVectors) (similarity : string -> string -> pyval)
    (cosine : list float -> list float -> pyval)
    (topk : Z) (mo : model_output) (ts : list (list string)) :
  topics mo = Some ts ->
  kv_wf wv ->
  raises_only [ZeroDivisionError] (PairwiseJaccardSimilarity.score topk mo)
  /\ raises_only [IndexError; InsufficientWordsError; ZeroDivisionError]
       (WordEmbeddingsPairwiseSimilarity.score wv similarity topk mo)
  /\ raises_only [IndexError; InsufficientWordsError; ZeroDivisionError]
       (WordEmbeddingsCentroidSimilarity.score wv cosine topk mo).
Proof.
  intros Hts Hwf. split; [|split].
  - unfold PairwiseJaccardSimilarity.score. read_topics Hts.
    destruct (for_each _ _ _) as [st|e] eqn:Hl; cbn [bind].
    + destruct (py_div _ _) as [v|e] eqn:Hd; [done|].
      apply py_div_Raise in Hd as ->. by left.
    + apply for_each_Raise in Hl as ([sim count] & p & _ & Hb).
      unfold PairwiseJaccardSimilarity.body,
        PairwiseJaccardSimilarity.pair_score in Hb.
      destruct (py_div _ _) as [v|e'] eqn:Hd; [discriminate|].
      injection Hb as <-. apply py_div_Raise in Hd as ->. by left.
  - unfold WordEmbeddingsPairwiseSimilarity.score. read_topics Hts.
    destruct ts as [|t0 ts']; [by left|].
    destruct (topk >? len t0); [by right; left|].
    destruct (for_each _ _ _) as [st|e] eqn:Hl; cbn [bind].
    + destruct (py_div _ _) as [v|e] eqn:Hd; [done|].
      apply py_div_Raise in Hd as ->. by do 2 right; left.
    + apply for_each_Raise in Hl as (s' & p & _ & Hb).
      apply WEPS_body_Raise in Hb as ->. by do 2 right; left.
  - unfold WordEmbeddingsCentroidSimilarity.score. read_topics Hts.
    destruct ts as [|t0 ts']; [by left|].
    destruct (topk >? len t0); [by right; left|].
    destruct (for_each _ _ _) as [st|e] eqn:Hl; cbn [bind].
    + destruct (py_div _ _) as [v|e] eqn:Hd; [done|].
      apply py_div_Raise in Hd as ->. by do 2 right; left.
    + apply for_each_Raise in Hl as (s' & p & _ & Hb).
      unfold WordEmbeddingsCentroidSimilarity.body in Hb.
      destruct (WECS_word_loop_Ok wv topk p.1 Hwf) as [st1 H1].
      destruct (WECS_word_loop_Ok wv topk p.2 Hwf) as [st2 H2].
      rewrite H1, H2 in Hb. discriminate Hb.
Qed.

Lemma pairwise_scorers_exceptions_witness :
  raises_only [ZeroDivisionError]
    (PairwiseJaccardSimilarity.score 0 (with_topics [["a"]; ["b"]]))
  /\ raises_only [IndexError; InsufficientWordsError; ZeroDivisionError]
       (WordEmbeddingsPairwiseSimilarity.score
          ex_wv (gensim_similarity ex_wv) 0 (with_topics [["a"]; ["b"]]))
  /\ raises_only [IndexError; InsufficientWordsError; ZeroDivisionError]
       (WordEmbeddingsCentroidSimilarity.score
          ex_wv scipy_cosine 0 (with_topics [["a"]; ["b"]])).
Proof.
  apply (pairwise_scorers_exceptions ex_wv (gensim_similarity ex_wv)
           scipy_cosine 0 (with_topics [["a"]; ["b"]]) [["a"]; ["b"]]).
  - reflexivity.
  - check_kv_wf.
Defined.

(** X13. A [model_output] without the key a scorer reads makes it fail
    with [KeyError], before anything else is looked at. *)
Theorem missing_key_is_KeyError
    (wv : KeyedVectors) (similarity : string -> string -> pyval)
    (cosine : list float -> list float -> pyval)
    (id2word : gmap nat string) (topk : Z) (mo : model_output) :
  (topics mo = None ->
   PairwiseJaccardSimilarity.score topk mo = Raise KeyError
   /\ WordEmbeddingsPairwiseSimilarity.score wv similarity topk mo
      = Raise KeyError
   /\ WordEmbeddingsCentroidSimilarity.score wv cosine topk mo
      = Raise KeyError)
  /\ (topic_word_distribution mo = None ->
      WordEmbeddingsWeightedSumSimilarity.score wv cosine id2word mo
      = Raise KeyError).
Proof.
  split; intros Hnone.
  - unfold PairwiseJaccardSimilarity.score,
      WordEmbeddingsPairwiseSimilarity.score,
      WordEmbeddingsCentroidSimilarity.score. by rewrite Hnone.
  - unfold WordEmbeddingsWeightedSumSimilarity.score. by rewrite Hnone.
Qed.

(** ** The weighted-sum scorer, continued *)

(** In binary64 a quotient by zero is never a finite number. *)
Lemma float_div_zero (f : float) :
  (f / 0)%float = infinity \/ (f / 0)%float = neg_infinity
  \/ (f / 0)%float = nan.
Proof.
  rewrite <- (SF2Prim_Prim2SF (f / 0)), div_spec.
  change (Prim2SF 0) with (SpecFloat.S754_zero false).
  destruct (Prim2SF f) as [s|s| |s m e]; simpl; try destruct s; auto.
Qed.

(** X14. The weighted-sum scorer never returns a finite number: whatever
    the input, it raises or returns the numpy scalar [inf], [-inf] or
    [nan], because its final division is by the counter [0]. *)
Theorem weighted_sum_score_never_finite
    (wv : KeyedVectors) (cosine : list float -> list float -> pyval)
    (id2word : gmap nat string) (mo : model_output) :
  match WordEmbeddingsWeightedSumSimilarity.score wv cosine id2word mo with
  | Ok v => v = NpFloat infinity \/ v = NpFloat neg_infinity
            \/ v = NpFloat nan
  | Raise _ => True
  end.
Proof.
  rewrite WESS_score_divides_by_zero.
  destruct (getitem _) as [beta|]; cbn [bind]; [|done].
  destruct (WordEmbeddingsWeightedSumSimilarity.pair_loop _ _ _ beta)
    as [[wess count]|]; cbn [bind fst]; [|done].
  destruct wess as [z|f|f]; cbn [py_div]; try done.
  destruct (float_div_zero f) as [H|[H|H]];
    change (float_of_Z 0) with 0%float; rewrite H; auto.
Qed.

(** X15. With fewer than two distribution rows the weighted-sum scorer
    fails with [ZeroDivisionError] (the int [0] by the int [0]). *)
Theorem weighted_sum_fewer_than_two_rows
    (wv : KeyedVectors) (cosine : list float -> list float -> pyval)
    (id2word : gmap nat string) (mo : model_output)
    (beta : list (list float)) :
  topic_word_distribution mo = Some beta ->
  (length beta < 2)%nat ->
  WordEmbeddingsWeightedSumSimilarity.score wv cosine id2word mo
  = Raise ZeroDivisionError.
Proof.
  intros Hbeta Hlen. unfold WordEmbeddingsWeightedSumSimilarity.score,
    WordEmbeddingsWeightedSumSimilarity.pair_loop.
  rewrite Hbeta. simpl getitem. cbn [bind].
  rewrite combinations2_short; [done|]. by rewrite length_seq.
Qed.

Lemma weighted_sum_fewer_than_two_rows_witness :
  WordEmbeddingsWeightedSumSimilarity.score ex_wv scipy_cosine ex_id2word
    (with_distribution [[1; 0]%float]) = Raise ZeroDivisionError.
Proof.
  apply (weighted_sum_fewer_than_two_rows _ _ _ _ [[1; 0]%float]).
  - reflexivity.
  - simpl. lia.
Defined.

(** The first components of the index pairs are below the last index. *)
Lemma combinations2_seq_fst (n : nat) (i j : nat) :
  (i, j) ∈ combinations2 (seq 0 (S n)) -> (i < n)%nat.
Proof.
  intros (a & b & Hab & Ha & Hb)%combinations2_lookup.
  apply lookup_seq in Ha as [-> _]. apply lookup_seq in Hb as [-> Hb].
  simpl in *. lia.
Qed.

(** X16. The weighted-sum scorer never reads the last distribution row:
    replacing it changes nothing in the result. *)
Theorem weighted_sum_ignores_last_row
    (wv : KeyedVectors) (cosine : list float -> list float -> pyval)
    (id2word : gmap nat string) (ts : option (list (list string)))
    (beta : list (list float)) (row1 row2 : list float) :
  WordEmbeddingsWeightedSumSimilarity.score wv cosine id2word
    {| topics := ts; topic_word_distribution := Some (beta ++ [row1]) |}
  = WordEmbeddingsWeightedSumSimilarity.score wv cosine id2word
      {| topics := ts; topic_word_distribution := Some (beta ++ [row2]) |}.
Proof.
  unfold WordEmbeddingsWeightedSumSimilarity.score,
    WordEmbeddingsWeightedSumSimilarity.pair_loop.
  cbn [topic_word_distribution getitem bind].
  rewrite !length_app. simpl length. rewrite Nat.add_1_r.
  rewrite (for_each_ext
             (WordEmbeddingsWeightedSumSimilarity.body
                wv cosine id2word (beta ++ [row1]))
             (WordEmbeddingsWeightedSumSimilarity.body
                wv cosine id2word (beta ++ [row2]))); [done|].
  intros st [i j] Hi%combinations2_seq_fst.
  unfold WordEmbeddingsWeightedSumSimilarity.body,
    WordEmbeddingsWeightedSumSimilarity.pair_value,
    WordEmbeddingsWeightedSumSimilarity.row_getitem.
  cbn [fst snd]. by rewrite !lookup_app_l.
Qed.

Lemma dict_get_not_contains (wv : KeyedVectors) (word : string) :
  contains wv word = false -> get_vector wv word = Raise KeyError.
Proof.
  unfold contains, dict_keys, get_vector. intros H.
  apply bool_decide_eq_false in H.
  induction (key_to_index wv) as [|[k i] d IH]; simpl in *; [done|].
  case_decide as Hk.
  - subst k. exfalso. apply H. by left.
  - apply IH. intros Hin. apply H. by right.
Qed.

(** The weight loop on a well-formed table: it runs through when every id
    resolves, and otherwise fails with [KeyError]. *)
Lemma WESS_weight_loop (wv : KeyedVectors) (id2word : gmap nat string)
    (xs : list (nat * float)) (c : list float) (weights : pyval) :
  kv_wf wv -> length c = vector_size wv ->
  (Forall (fun iw => resolves wv id2word iw.1) xs
   /\ exists st,
        for_each (WordEmbeddingsWeightedSumSimilarity.weight_step wv id2word)
                 xs (c, weights) = Ok st)
  \/ (Exists (fun iw => ~ resolves wv id2word iw.1) xs
      /\ for_each (WordEmbeddingsWeightedSumSimilarity.weight_step wv id2word)
                  xs (c, weights) = Raise KeyError).
Proof.
  intros Hwf. revert c weights.
  induction xs as [|[id_beta w] xs IH]; intros c weights Hc; simpl.
  { left. split; [constructor | eauto]. }
  unfold WordEmbeddingsWeightedSumSimilarity.weight_step at 1 3.
  unfold WordEmbeddingsWeightedSumSimilarity.id2word_getitem. cbn [fst snd].
  destruct (id2word !! id_beta) as [word|] eqn:Hid; cbn [bind].
  - destruct (contains wv word) eqn:Hin.
    + destruct (get_vector_wf wv word Hwf Hin) as (a & v & -> & Ha & Hv).
      cbn [bind]. unfold np_scale_array. rewrite Ha. cbn [bind].
      unfold np_add, np_scale.
      rewrite decide_True by (rewrite length_fmap; congruence). cbn [bind].
      destruct (IH (zip_with PrimFloat.add c ((fun x => (x * w)%float) <$> v))
                  (py_add weights (NpFloat w)))
        as [[HF Hok] | [HE Hraise]].
      { rewrite length_zip_with, length_fmap. lia. }
      * left. split; [|done]. constructor; [|done]. by exists word.
      * right. split; [by apply Exists_cons_tl | done].
    + right. rewrite (dict_get_not_contains wv word Hin). split; [|done].
      apply Exists_cons_hd. intros (word' & Hw' & Hc'). simpl in Hw'.
      congruence.
  - right. split; [|done].
    apply Exists_cons_hd. intros (word' & Hw' & _). simpl in Hw'. congruence.
Qed.

Lemma imap_pair_ids (row : list float) (P : nat -> Prop) :
  (Forall (fun iw : nat * float => P iw.1) (imap pair row)
   <-> forall i, (i < length row)%nat -> P i)
  /\ (Exists (fun iw : nat * float => P iw.1) (imap pair row)
      <-> exists i, (i < length row)%nat /\ P i).
Proof.
  split.
  - rewrite Forall_forall. split.
    + intros H i Hi. destruct (lookup_lt_is_Some_2 row i Hi) as [w Hw].
      apply (H (i, w)). apply elem_of_lookup_imap. by exists i, w.
    + intros H [i w] (i' & w' & [= -> ->] & Hw)%elem_of_lookup_imap.
      apply H. by eapply lookup_lt_Some.
  - rewrite Exists_exists. split.
    + intros ([i w] & (i' & w' & [= -> ->] & Hw)%elem_of_lookup_imap & HP).
      exists i'. split; [by eapply lookup_lt_Some | done].
    + intros (i & Hi & HP).
      destruct (lookup_lt_is_Some_2 row i Hi) as [w Hw].
      exists (i, w). split; [|done]. apply elem_of_lookup_imap. by exists i, w.
Qed.

Lemma WESS_weighted_centroid_cases (wv : KeyedVectors)
    (id2word : gmap nat string) (row : list float) :
  kv_wf wv ->
  ((forall i, (i < length row)%nat -> resolves wv id2word i)
   /\ exists c, WordEmbeddingsWeightedSumSimilarity.weighted_centroid
                  wv id2word row = Ok c)
  \/ ((exists i, (i < length row)%nat /\ ~ resolves wv id2word i)
      /\ WordEmbeddingsWeightedSumSimilarity.weighted_centroid
           wv id2word row = Raise KeyError).
Proof.
  intros Hwf. unfold WordEmbeddingsWeightedSumSimilarity.weighted_centroid.
  destruct (WESS_weight_loop wv id2word (imap pair row)
              (np_zeros (vector_size wv)) (PyInt 0) Hwf)
    as [[HF [st ->]] | [HE ->]]; [apply length_replicate| |].
  - left. split; [by apply (imap_pair_ids row (resolves wv id2word))|].
    cbn [bind]. eauto.
  - right. split; [|done].
    by apply (imap_pair_ids row (fun i => ~ resolves wv id2word i)).
Qed.

(** X17. On a well-formed table the weighted centroid of a row is built
    exactly when every vocabulary id of the row has a word in [id2word]
    that the table knows; a single id that does not makes it fail with
    [KeyError]: unknown words are not skipped. *)
Theorem weighted_centroid_needs_every_word
    (wv : KeyedVectors) (id2word : gmap nat string) (row : list float) :
  kv_wf wv ->
  ((exists c, WordEmbeddingsWeightedSumSimilarity.weighted_centroid
                wv id2word row = Ok c)
   <-> forall i, (i < length row)%nat -> resolves wv id2word i)
  /\ (WordEmbeddingsWeightedSumSimilarity.weighted_centroid wv id2word row
      = Raise KeyError
      <-> exists i, (i < length row)%nat /\ ~ resolves wv id2word i).
Proof.
  intros Hwf.
  destruct (WESS_weighted_centroid_cases wv id2word row Hwf)
    as [[Hall [c ->]] | [(i & Hi & Hno) ->]].
  - split; split; try done; [by eauto|].
    intros (i & Hi & Hno). exfalso. by apply Hno, Hall.
  - split; split; try done; [by intros [c ?] | | by eauto].
    intros Hall. exfalso. by apply Hno, Hall.
Qed.

Lemma weighted_centroid_needs_every_word_witness :
  ((exists c, WordEmbeddingsWeightedSumSimilarity.weighted_centroid
                ex_wv ex_id2word [0.5; 0.5; 0]%float = Ok c)
   <-> forall i, (i < length [0.5; 0.5; 0]%float)%nat ->
                 resolves ex_wv ex_id2word i)
  /\ (WordEmbeddingsWeightedSumSimilarity.weighted_centroid
        ex_wv ex_id2word [0.5; 0.5; 0]%float = Raise KeyError
      <-> exists i, (i < length [0.5; 0.5; 0]%float)%nat
                    /\ ~ resolves ex_wv ex_id2word i).
Proof.
  apply (weighted_centroid_needs_every_word ex_wv ex_id2word).
  check_kv_wf.
Defined.

(** X18. On a well-formed table, a row other than the last with a
    vocabulary id that does not resolve makes the weighted-sum scorer fail
    with [KeyError]. *)
Theorem weighted_sum_unknown_word_is_KeyError
    (wv : KeyedVectors) (cosine : list float -> list float -> pyval)
    (id2word : gmap nat string) (mo : model_output)
    (beta : list (list float)) (i : nat) (row : list float) (id_beta : nat) :
  kv_wf wv ->
  topic_word_distribution mo = Some beta ->
  beta !! i = Some row ->
  (S i < length beta)%nat ->
  (id_beta < length row)%nat ->
  ~ resolves wv id2word id_beta ->
  WordEmbeddingsWeightedSumSimilarity.score wv cosine id2word mo
  = Raise KeyError.
Proof.
  intros Hwf Hbeta Hrow Hi Hid Hno.
  unfold WordEmbeddingsWeightedSumSimilarity.score,
    WordEmbeddingsWeightedSumSimilarity.pair_loop.
  rewrite Hbeta. simpl getitem. cbn [bind].
  rewrite (for_each_must_raise _ _ _ KeyError (i, S i)); [done| | |].
  - intros st [a b] (a' & b' & Hab & Ha & Hb)%combinations2_lookup.
    apply lookup_seq in Ha as [Ha _]. apply lookup_seq in Hb as [Hb Hlt].
    simpl in Ha, Hb, Hlt. subst a b.
    unfold WordEmbeddingsWeightedSumSimilarity.body. cbn [fst snd].
    rewrite WESS_pair_value_self_distance.
    unfold WordEmbeddingsWeightedSumSimilarity.row_getitem.
    destruct (lookup_lt_is_Some_2 beta a' ltac:(lia)) as [r ->]. cbn [bind].
    destruct (WESS_weighted_centroid_cases wv id2word r Hwf)
      as [[_ [c ->]] | [_ ->]]; cbn [bind]; eauto.
  - apply combinations2_lookup. exists i, (S i).
    split; [lia|]. split; apply lookup_seq; simpl; lia.
  - intros st. unfold WordEmbeddingsWeightedSumSimilarity.body. cbn [fst snd].
    rewrite WESS_pair_value_self_distance.
    unfold WordEmbeddingsWeightedSumSimilarity.row_getitem.
    rewrite Hrow. cbn [bind].
    destruct (WESS_weighted_centroid_cases wv id2word row Hwf)
      as [[Hall _] | [_ ->]]; [|done].
    exfalso. by apply Hno, Hall.
Qed.

Lemma weighted_sum_unknown_word_is_KeyError_witness :
  WordEmbeddingsWeightedSumSimilarity.score ex_wv scipy_cosine ex_id2word
    (with_distribution [[0.5; 0.25; 0.25]; [1; 0; 0]]%float)
  = Raise KeyError.
Proof.
  apply (weighted_sum_unknown_word_is_KeyError ex_wv scipy_cosine ex_id2word
           _ [[0.5; 0.25; 0.25]; [1; 0; 0]]%float 0%nat
           [0.5; 0.25; 0.25]%float 2%nat).
  - check_kv_wf.
  - reflexivity.
  - reflexivity.
  - simpl. lia.
  - simpl. lia.
  - intros (word & Hw & _). vm_compute in Hw. discriminate.
Defined.

(** ** get_word2index *)

Lemma dict_get_elem_of {V} (d : list (string * V)) (k : string) (v : V) :
  dict_get d k = Ok v -> (k, v) ∈ d.
Proof.
  induction d as [|[k' v'] d IH]; simpl; [discriminate|].
  case_decide as Hk.
  - intros [= ->]. subst k'. by left.
  - intros H. right. by apply IH.
Qed.

(** X19. Whatever order the set of words is iterated in, [get_word2index]
    numbers the distinct words of the two lists: its keys are exactly the
    words of either list, each once; its values are 0, 1, ... up to the
    number of distinct words; every word of either list has an index, and
    two words never share one. *)
Theorem get_word2index_numbers_distinct_words
    (order : gset string -> list string) (list1 list2 : list string) :
  (forall s : gset string, order s ≡ₚ elements s) ->
  NoDup (dict_keys (get_word2index order list1 list2))
  /\ (forall w, w ∈ dict_keys (get_word2index order list1 list2)
                <-> w ∈ list1 \/ w ∈ list2)
  /\ dict_values (get_word2index order list1 list2)
     = seq 0 (size (list_to_set list1 ∪ list_to_set list2 : gset string))
  /\ (forall w, w ∈ list1 \/ w ∈ list2 ->
        exists i, dict_get (get_word2index order list1 list2) w = Ok i
                  /\ (i < size (list_to_set list1 ∪ list_to_set list2
                                : gset string))%nat)
  /\ (forall w1 w2 i,
        dict_get (get_word2index order list1 list2) w1 = Ok i ->
        dict_get (get_word2index order list1 list2) w2 = Ok i ->
        w1 = w2).
Proof.
  intros Horder. unfold get_word2index.
  set (words := (list_to_set list1 ∪ list_to_set list2 : gset string)).
  assert (Hkeys : dict_keys (imap (fun i w => (w, i)) (order words))
                  = order words) by apply (imap_keys id).
  assert (Hnd : NoDup (order words))
    by (rewrite Horder; apply NoDup_elements).
  assert (Hlen : length (order words) = size words)
    by (by rewrite Horder).
  assert (Hin : forall w, w ∈ order words <-> w ∈ list1 \/ w ∈ list2).
  { intros w. rewrite Horder, elem_of_elements. unfold words.
    by rewrite elem_of_union, !elem_of_list_to_set. }
  split; [by rewrite Hkeys|]. split; [by rewrite Hkeys|].
  split; [by rewrite imap_index_values, Hlen|]. split.
  - intros w Hw. apply Hin, list_elem_of_lookup in Hw as [i Hi].
    exists i. split; [|rewrite <- Hlen; by eapply lookup_lt_Some].
    apply (dict_get_imap id (order words) i w Hnd Hi).
  - intros w1 w2 i H1 H2.
    apply dict_get_elem_of, elem_of_lookup_imap in H1
      as (i1 & y1 & [= -> ->] & Hy1).
    apply dict_get_elem_of, elem_of_lookup_imap in H2
      as (i2 & y2 & [= -> ->] & Hy2).
    congruence.
Qed.

Lemma get_word2index_numbers_distinct_words_witness :
  NoDup (dict_keys (get_word2index elements ["a"; "b"] ["b"; "c"]))
  /\ (forall w, w ∈ dict_keys (get_word2index elements ["a"; "b"] ["b"; "c"])
                <-> w ∈ ["a"; "b"] \/ w ∈ ["b"; "c"])
  /\ dict_values (get_word2index elements ["a"; "b"] ["b"; "c"])
     = seq 0 (size (list_to_set ["a"; "b"] ∪ list_to_set ["b"; "c"]
                    : gset string))
  /\ (forall w, w ∈ ["a"; "b"] \/ w ∈ ["b"; "c"] ->
        exists i, dict_get (get_word2index elements ["a"; "b"] ["b"; "c"]) w
                  = Ok i
                  /\ (i < size (list_to_set ["a"; "b"] ∪ list_to_set ["b"; "c"]
                                : gset string))%nat)
  /\ (forall w1 w2 i,
        dict_get (get_word2index elements ["a"; "b"] ["b"; "c"]) w1 = Ok i ->
        dict_get (get_word2index elements ["a"; "b"] ["b"; "c"]) w2 = Ok i ->
        w1 = w2).
Proof.
  apply (get_word2index_numbers_distinct_words elements
           ["a"; "b"] ["b"; "c"]).
  intros s. reflexivity.
Defined.

(** ** From construction to scoring *)

(** X20. A centroid scorer constructed from a mapping of well-formed
    arrays keeps the [topk] it was given and has the mapping's keys as its
    vocabulary; when the arrays hold numbers it returns a value on every two
    or more topics that pass its guard. *)
Theorem centroid_scorer_from_mapping
    (api_load : string -> result KeyedVectors)
    (cosine : list float -> list float -> pyval)
    (topk : Z) (dic : list (string * pyobj)) (model_name : option string)
    (self : embedding_scorer) (mo : model_output) (t0 t1 : list string)
    (rest : list (list string)) :
  Forall (fun o => ndarray_wf (asanyarray o)) (dict_values dic) ->
  WordEmbeddingsCentroidSimilarity__init__ api_load topk
    (KeyedVectorsMixin.ModelDict dic) model_name = Ok self ->
  topics mo = Some (t0 :: t1 :: rest) ->
  topk <= len t0 ->
  self_topk self = topk
  /\ dict_keys (key_to_index (self_wv self)) = dict_keys dic
  /\ (Forall (fun o => numeric (asanyarray o)) (dict_values dic) ->
      exists v, WordEmbeddingsCentroidSimilarity.score
                  (self_wv self) cosine (self_topk self) mo = Ok v).
Proof.
  intros Hwf Hinit Hts Hk.
  unfold WordEmbeddingsCentroidSimilarity__init__ in Hinit.
  cbn [KeyedVectorsMixin.load_keyedvectors] in Hinit.
  destruct (KeyedVectorsMixin._convert_dict_to_keyedvectors dic)
    as [kv|] eqn:Hkv; [|discriminate].
  injection Hinit as <-. cbn [self_topk self_wv].
  split; [done|]. split.
  - destruct (convert_Ok_shapes dic kv Hkv) as (k & a & r & n & _ & _ & ->).
    apply (imap_keys id).
  - intros Hnum.
    apply (WECS_score_Ok kv cosine topk mo t0 t1 rest); [|done..].
    by eapply convert_kv_wf.
Qed.

Lemma centroid_scorer_from_mapping_witness :
  self_topk {| self_topk := 2; self_wv := ex_wv |} = 2
  /\ dict_keys (key_to_index
                  (self_wv {| self_topk := 2; self_wv := ex_wv |}))
     = dict_keys ex_dic
  /\ exists v, WordEmbeddingsCentroidSimilarity.score
                 (self_wv {| self_topk := 2; self_wv := ex_wv |}) scipy_cosine
                 (self_topk {| self_topk := 2; self_wv := ex_wv |})
                 (with_topics [["a"; "b"]; ["b"; "x"]]) = Ok v.
Proof.
  destruct (centroid_scorer_from_mapping (fun _ => Raise KeyError)
              scipy_cosine 2 ex_dic None
              {| self_topk := 2; self_wv := ex_wv |}
              (with_topics [["a"; "b"]; ["b"; "x"]])
              ["a"; "b"] ["b"; "x"] []) as (Htopk & Hkeys & Hscore).
  - repeat constructor.
  - reflexivity.
  - reflexivity.
  - vm_compute. discriminate.
  - split; [exact Htopk|]. split; [exact Hkeys|]. apply Hscore.
    repeat (apply Forall_cons_2;
            [split; [discriminate | check_numbers]|]).
    apply Forall_nil_2.
Defined.

(** ** Symmetry of the centroid pair value *)

Lemma float_mul_comm (x y : float) : (x * y = y * x)%float.
Proof.
  apply Prim2SF_inj. rewrite !mul_spec.
  destruct (Prim2SF x) as [sx|sx| |sx mx ex],
           (Prim2SF y) as [sy|sy| |sy my ey]; simpl; try reflexivity;
    rewrite ?(xorb_comm sx sy), ?(Pos.mul_comm mx my), ?(Z.add_comm ex ey);
    reflexivity.
Qed.

Lemma np_dot_comm (u v : list float) : np_dot u v = np_dot v u.
Proof.
  unfold np_dot. generalize 0%float as acc. revert v.
  induction u as [|x u IH]; intros [|y v] acc; simpl; try reflexivity.
  rewrite (float_mul_comm x y). apply IH.
Qed.

(** scipy's cosine distance is symmetric, bit for bit. *)
Lemma scipy_cosine_comm (u v : list float) :
  scipy_cosine u v = scipy_cosine v u.
Proof.
  unfold scipy_cosine.
  by rewrite (np_dot_comm u v), (float_mul_comm (np_dot u u)).
Qed.

(** X21. On a well-formed table, and with a symmetric cosine distance (as
    scipy's is), the value the centroid scorer adds for a pair of topics
    does not depend on their order. *)
Theorem centroid_pair_symmetric
    (wv : KeyedVectors) (cosine : list float -> list float -> pyval)
    (topk : Z) (st : pyval * Z) (list1 list2 : list string) :
  kv_wf wv ->
  (forall u v, cosine u v = cosine v u) ->
  WordEmbeddingsCentroidSimilarity.body wv cosine topk st (list1, list2)
  = WordEmbeddingsCentroidSimilarity.body wv cosine topk st (list2, list1).
Proof.
  intros Hwf Hsym. unfold WordEmbeddingsCentroidSimilarity.body.
  cbn [fst snd].
  destruct (WECS_word_loop_Ok wv topk list1 Hwf) as [st1 ->].
  destruct (WECS_word_loop_Ok wv topk list2 Hwf) as [st2 ->].
  cbn [bind]. by rewrite Hsym.
Qed.

Lemma centroid_pair_symmetric_witness :
  WordEmbeddingsCentroidSimilarity.body ex_wv scipy_cosine 2 (PyInt 0, 0)
    (["a"; "b"], ["b"; "x"])
  = WordEmbeddingsCentroidSimilarity.body ex_wv scipy_cosine 2 (PyInt 0, 0)
      (["b"; "x"], ["a"; "b"]).
Proof.
  apply (centroid_pair_symmetric ex_wv scipy_cosine 2 (PyInt 0, 0)).
  - check_kv_wf.
  - apply scipy_cosine_comm.
Defined.
